(** * The Delegator agent of the revenue-sharing model

    A shallow embedding of [model/model/delegator.py]: the [Delegator]
    class (construction, share bookkeeping, [dividend_value],
    [buy_or_sell]) and the module-level [get_component_weights].

    Numbers.  The Python code computes with ints and floats; every
    quantity is embedded as a real number, so rounding, overflow and NaN
    are abstracted away.  One fragment is embedded on binary64 floats as
    well ([sell_clip64]): the clip of the burn to the floor of minimum
    shares, where the rounding of the subtractions decides whether the
    floor is kept.  What Python does beyond arithmetic is kept:
    - [a / b] raises [ZeroDivisionError] when [b] is zero ([pydiv]);
    - [x ** (1 / 2)] is the square root for [0 <= x]; for a negative
      float Python answers a complex number and carries on in complex
      arithmetic, which leaves the real-valued model ([NonReal]);
    - [assert] raises [AssertionError];
    - list item assignment follows Python's indexing (negative indices
      count from the end, anything else raises [IndexError]).
    The [print] calls only write to standard output and are dropped. *)

From Stdlib Require Import Floats.
From Stdlib Require Import Reals Lra ZArith List.
From stdpp Require Import base option gmap fin_maps.
Import ListNotations.

Local Open Scope R_scope.

(* Decimal literals of floats denote the nearest binary64 value, as in
   Python. *)
#[local] Set Warnings "-inexact-float".

(** ** Outcomes of Python code *)

Inductive exn : Set :=
| ZeroDivisionError
| AssertionError
| IndexError.

(** The result of evaluating an expression or running a block. *)
Inductive result (A : Type) : Type :=
| Ok (a : A)
| Raise (e : exn)
| NonReal.

Arguments Ok {A} a.
Arguments Raise {A} e.
Arguments NonReal {A}.

(** [a / b] of Python on real operands. *)
Definition pydiv (a b : R) : result R :=
  if Req_dec_T b 0 then Raise ZeroDivisionError else Ok (a / b).

(** [x ** (1 / 2)] of Python on a real operand. *)
Definition pow_half (x : R) : result R :=
  if Rlt_dec x 0 then NonReal else Ok (sqrt x).

(** ** Methods: a state monad over the object, with exceptions

    A method runs on the object [self] and either returns a value, raises,
    or leaves the model; the fields assigned before a [raise] stay
    assigned, so the object is threaded through every outcome. *)

Definition M (S A : Type) : Type := S -> result A * S.

Definition ret {S A} (a : A) : M S A := fun s => (Ok a, s).

Definition bind {S A B} (m : M S A) (f : A -> M S B) : M S B :=
  fun s =>
    match m s with
    | (Ok a, s') => f a s'
    | (Raise e, s') => (Raise e, s')
    | (NonReal, s') => (NonReal, s')
    end.

(** Reading [self]. *)
Definition get {S} : M S S := fun s => (Ok s, s).

(** Assigning to fields of [self]. *)
Definition modify {S} (f : S -> S) : M S unit := fun s => (Ok tt, f s).

(** Evaluating a fallible expression. *)
Definition eval {S A} (r : result A) : M S A := fun s => (r, s).

Declare Scope py_scope.
Delimit Scope py_scope with py.
Notation "x <- m ;; k" := (bind m (fun x => k))
  (at level 100, m at next level, right associativity) : py_scope.
Notation "m ;; k" := (bind m (fun _ => k))
  (at level 100, right associativity) : py_scope.

(** ** The object *)

(** The fields a [Delegator] carries after [__init__]. *)
Record Delegator : Type := mkDelegator {
  id : Z;
  _unvested_shares : gmap Z R;
  vested_shares : R;
  revenue_token_holdings : R;
  reserve_token_holdings : R;
  expected_revenue : R;
  discount_rate : R;
  time_factor : R;
  delegator_activity_rate : R;
  minimum_shares : R;
  avg_delta_price : R;
  regression_to_mean_private_price : R;
  value_private_price : R;
  trendline_private_price : R;
  delegator_type : Z;
  component_weights : list R;
  private_price : R;
  smoothing_factor : R;
  cost_basis : R;
  unrealized_gains_from_shares : R;
  realized_gains_from_shares : R;
  realized_gains_from_dividends : R
}.

(** Field assignments [self.f = v]. *)
Definition set__unvested_shares (v : gmap Z R) (d : Delegator) : Delegator :=
  mkDelegator (id d) v (vested_shares d) (revenue_token_holdings d)
    (reserve_token_holdings d) (expected_revenue d) (discount_rate d)
    (time_factor d) (delegator_activity_rate d) (minimum_shares d)
    (avg_delta_price d) (regression_to_mean_private_price d)
    (value_private_price d) (trendline_private_price d) (delegator_type d)
    (component_weights d) (private_price d) (smoothing_factor d)
    (cost_basis d) (unrealized_gains_from_shares d)
    (realized_gains_from_shares d) (realized_gains_from_dividends d).

Definition set_vested_shares (v : R) (d : Delegator) : Delegator :=
  mkDelegator (id d) (_unvested_shares d) v (revenue_token_holdings d)
    (reserve_token_holdings d) (expected_revenue d) (discount_rate d)
    (time_factor d) (delegator_activity_rate d) (minimum_shares d)
    (avg_delta_price d) (regression_to_mean_private_price d)
    (value_private_price d) (trendline_private_price d) (delegator_type d)
    (component_weights d) (private_price d) (smoothing_factor d)
    (cost_basis d) (unrealized_gains_from_shares d)
    (realized_gains_from_shares d) (realized_gains_from_dividends d).

Definition set_reserve_token_holdings (v : R) (d : Delegator) : Delegator :=
  mkDelegator (id d) (_unvested_shares d) (vested_shares d)
    (revenue_token_holdings d) v (expected_revenue d) (discount_rate d)
    (time_factor d) (delegator_activity_rate d) (minimum_shares d)
    (avg_delta_price d) (regression_to_mean_private_price d)
    (value_private_price d) (trendline_private_price d) (delegator_type d)
    (component_weights d) (private_price d) (smoothing_factor d)
    (cost_basis d) (unrealized_gains_from_shares d)
    (realized_gains_from_shares d) (realized_gains_from_dividends d).

Definition set_private_price (v : R) (d : Delegator) : Delegator :=
  mkDelegator (id d) (_unvested_shares d) (vested_shares d)
    (revenue_token_holdings d) (reserve_token_holdings d)
    (expected_revenue d) (discount_rate d) (time_factor d)
    (delegator_activity_rate d) (minimum_shares d) (avg_delta_price d)
    (regression_to_mean_private_price d) (value_private_price d)
    (trendline_private_price d) (delegator_type d) (component_weights d)
    v (smoothing_factor d) (cost_basis d) (unrealized_gains_from_shares d)
    (realized_gains_from_shares d) (realized_gains_from_dividends d).

Definition set_cost_basis (v : R) (d : Delegator) : Delegator :=
  mkDelegator (id d) (_unvested_shares d) (vested_shares d)
    (revenue_token_holdings d) (reserve_token_holdings d)
    (expected_revenue d) (discount_rate d) (time_factor d)
    (delegator_activity_rate d) (minimum_shares d) (avg_delta_price d)
    (regression_to_mean_private_price d) (value_private_price d)
    (trendline_private_price d) (delegator_type d) (component_weights d)
    (private_price d) (smoothing_factor d) v
    (unrealized_gains_from_shares d) (realized_gains_from_shares d)
    (realized_gains_from_dividends d).

Definition set_unrealized_gains_from_shares (v : R) (d : Delegator)
  : Delegator :=
  mkDelegator (id d) (_unvested_shares d) (vested_shares d)
    (revenue_token_holdings d) (reserve_token_holdings d)
    (expected_revenue d) (discount_rate d) (time_factor d)
    (delegator_activity_rate d) (minimum_shares d) (avg_delta_price d)
    (regression_to_mean_private_price d) (value_private_price d)
    (trendline_private_price d) (delegator_type d) (component_weights d)
    (private_price d) (smoothing_factor d) (cost_basis d) v
    (realized_gains_from_shares d) (realized_gains_from_dividends d).

Definition set_realized_gains_from_shares (v : R) (d : Delegator)
  : Delegator :=
  mkDelegator (id d) (_unvested_shares d) (vested_shares d)
    (revenue_token_holdings d) (reserve_token_holdings d)
    (expected_revenue d) (discount_rate d) (time_factor d)
    (delegator_activity_rate d) (minimum_shares d) (avg_delta_price d)
    (regression_to_mean_private_price d) (value_private_price d)
    (trendline_private_price d) (delegator_type d) (component_weights d)
    (private_price d) (smoothing_factor d) (cost_basis d)
    (unrealized_gains_from_shares d) v (realized_gains_from_dividends d).

Definition set_realized_gains_from_dividends (v : R) (d : Delegator)
  : Delegator :=
  mkDelegator (id d) (_unvested_shares d) (vested_shares d)
    (revenue_token_holdings d) (reserve_token_holdings d)
    (expected_revenue d) (discount_rate d) (time_factor d)
    (delegator_activity_rate d) (minimum_shares d) (avg_delta_price d)
    (regression_to_mean_private_price d) (value_private_price d)
    (trendline_private_price d) (delegator_type d) (component_weights d)
    (private_price d) (smoothing_factor d) (cost_basis d)
    (unrealized_gains_from_shares d) (realized_gains_from_shares d) v.

(** ** Queries *)

(** [sum(s for s in m.values())] over a dict of numbers. *)
Definition sum_values (m : gmap Z R) : R :=
  map_fold (fun (_ : Z) (s acc : R) => s + acc) 0 m.

Definition unvested_shares (d : Delegator) : R :=
  sum_values (_unvested_shares d).

Definition shares (d : Delegator) : R :=
  unvested_shares d + vested_shares d.

Definition is_member (d : Delegator) : bool :=
  if Rgt_dec (shares d) 0 then true else false.

(** [self._unvested_shares[timestep] = shares]. *)
Definition set_shares (timestep : Z) (s : R) (d : Delegator) : Delegator :=
  set__unvested_shares (<[timestep := s]> (_unvested_shares d)) d.

(** [random.random()] is passed in as the number [rng] it draws. *)
Definition will_act (rng : R) (d : Delegator) : bool :=
  if Rlt_dec rng (delegator_activity_rate d) then true else false.

(** ** [dividend_value] *)

Definition dividend_value
    (supply owners_share reserve_to_revenue_token_exchange_rate : R)
  : M Delegator R :=
  (self <- get ;;
   if Rgt_dec supply 0 then
     revenue_per_period_per_share <-
       eval (pydiv (expected_revenue self * (1 - owners_share)) supply) ;;
     let reserve_asset_per_period_per_share :=
       revenue_per_period_per_share * reserve_to_revenue_token_exchange_rate in
     let reserve_asset_per_share_time_corrected :=
       reserve_asset_per_period_per_share * time_factor self in
     modify (fun s =>
       set_realized_gains_from_dividends
         (realized_gains_from_dividends s
          + reserve_asset_per_period_per_share * shares s) s) ;;
     ret reserve_asset_per_share_time_corrected
   else eval (Raise AssertionError))%py.

(** ** [buy_or_sell] *)

(** The BUY block: size the purchase, clip it to the reserve held, mint
    the shares on the curve and store them under [timestep]. *)
Definition buy (supply reserve : R) (timestep : Z) : M Delegator (R * R) :=
  (self <- get ;;
   added_reserve <-
     eval (pydiv ((private_price self) ^ 2 * supply ^ 2 - 4 * reserve ^ 2)
                 (4 * reserve)) ;;
   let added_reserve :=
     if Rgt_dec added_reserve (reserve_token_holdings self)
     then reserve_token_holdings self else added_reserve in
   ratio <- eval (pydiv added_reserve reserve) ;;
   root <- eval (pow_half (1 + ratio)) ;;
   let created_shares := supply * root - supply in
   modify (set_shares timestep created_shares) ;;
   ret (created_shares, added_reserve))%py.

(** The SELL block: size the burn, clip it to the vested shares and to
    the floor [minimum_shares], pay out along the curve. *)
Definition sell (supply reserve : R) : M Delegator (R * R) :=
  (self <- get ;;
   burned_shares <-
     eval (pydiv (2 * reserve * supply - private_price self * supply ^ 2)
                 (2 * reserve)) ;;
   let vested_shares_count := vested_shares self in
   if Rgt_dec vested_shares_count 0 then
     let burned_shares :=
       if Rgt_dec burned_shares vested_shares_count
       then vested_shares_count else burned_shares in
     let burned_shares :=
       if Rlt_dec (vested_shares_count - burned_shares) (minimum_shares self)
       then vested_shares_count - minimum_shares self else burned_shares in
     let created_shares := - burned_shares in
     ratio <- eval (pydiv burned_shares supply) ;;
     let reserve_paid_out := reserve - reserve * (1 - ratio) ^ 2 in
     let added_reserve := - reserve_paid_out in
     modify (fun s => set_vested_shares (vested_shares s - burned_shares) s) ;;
     ret (created_shares, added_reserve)
   else ret (0, 0))%py.

(** The bookkeeping for profits that ends [buy_or_sell]. *)
Definition bookkeeping
    (supply reserve original_shares original_cost_basis : R)
    (created_shares added_reserve : R) : M Delegator unit :=
  (new_spot_price <-
     eval (pydiv (2 * (reserve + added_reserve)) (supply + created_shares)) ;;
   if Req_dec_T created_shares 0 then ret tt
   else
     created_shares_cost_basis <- eval (pydiv added_reserve created_shares) ;;
     (if Rgt_dec added_reserve 0 then
        self <- get ;;
        new_cost_basis <-
          eval (pydiv (original_cost_basis * original_shares
                       + created_shares_cost_basis * created_shares)
                      (shares self)) ;;
        modify (set_cost_basis new_cost_basis)
      else if Rlt_dec added_reserve 0 then
        modify (fun s =>
          set_realized_gains_from_shares
            (realized_gains_from_shares s
             - (created_shares_cost_basis - cost_basis s) * created_shares) s)
      else ret tt) ;;
     modify (fun s =>
       set_unrealized_gains_from_shares
         (shares s * new_spot_price - shares s * cost_basis s) s))%py.

(** [pct_price_diff] as the method computes it; the division is guarded
    by [spot_price > 0]. *)
Definition pct_price_diff (self : Delegator) (spot_price : R) : R :=
  if Rgt_dec spot_price 0
  then Rabs ((private_price self - spot_price) / spot_price)
  else 0.

(** The branch on the side of the spot price the private price lies on;
    it yields [(created_shares, added_reserve)], both 0 when no block ran. *)
Definition trade (supply reserve spot_price : R) (timestep : Z)
  : M Delegator (R * R) :=
  (self <- get ;;
   if Rgt_dec (private_price self) spot_price then
     buy supply reserve timestep
   else if Rlt_dec (private_price self) spot_price then
     sell supply reserve
   else ret (0, 0))%py.

Definition buy_or_sell
    (supply reserve spot_price mininum_required_price_pct_diff_to_act : R)
    (timestep : Z) : M Delegator (R * R) :=
  (self <- get ;;
   let original_shares := shares self in
   let original_cost_basis := cost_basis self in
   if Rlt_dec (pct_price_diff self spot_price)
              mininum_required_price_pct_diff_to_act
   then ret (0, 0)
   else
     sized <- trade supply reserve spot_price timestep ;;
     let created_shares := fst sized in
     let added_reserve := snd sized in
     modify (fun s =>
       set_reserve_token_holdings (reserve_token_holdings s - added_reserve) s) ;;
     bookkeeping supply reserve original_shares original_cost_basis
                 created_shares added_reserve ;;
     ret (created_shares, added_reserve))%py.

(** ** [get_component_weights] *)

(** The position Python's [l[i]] denotes in a list of length [len]. *)
Definition py_index (len : nat) (i : Z) : result nat :=
  if ((0 <=? i) && (i <? Z.of_nat len))%Z then Ok (Z.to_nat i)
  else if ((- Z.of_nat len <=? i) && (i <? 0))%Z
       then Ok (Z.to_nat (Z.of_nat len + i))
       else Raise IndexError.

(** [l[i] = f(l[i])], as item assignment and as [l[i] *= c]. *)
Definition alter_item {A} (f : A -> A) (i : Z) (l : list A) : result (list A) :=
  match py_index (length l) i with
  | Ok n => Ok (alter f n l)
  | Raise e => Raise e
  | NonReal => NonReal
  end.

Definition AVG_OUTSIZE_FACTOR_OF_PRICE_TYPE : R := 10.

(** [rvs] stands for the three draws [stats.expon.rvs(size=3)] would make.
    The weights there are a numpy array: dividing it by its sum is
    elementwise and does not raise. *)
Definition get_component_weights (rvs : R * R * R) (delegator_type : Z)
  : result (list R) :=
  if Z.eq_dec delegator_type 0%Z then
    let '(r0, r1, r2) := rvs in
    let weights := [r0; r1; r2] in
    let INDEX_OF_OUTSIZED_WEIGHTED_INPUT := (delegator_type - 1)%Z in
    match alter_item (fun w => w * AVG_OUTSIZE_FACTOR_OF_PRICE_TYPE)
                     (INDEX_OF_OUTSIZED_WEIGHTED_INPUT - 1)%Z weights with
    | Ok weights =>
        let total := fold_right Rplus 0 weights in
        Ok (map (fun w => w / total) weights)
    | Raise e => Raise e
    | NonReal => NonReal
    end
  else
    alter_item (fun _ => 1) (delegator_type - 1)%Z [0; 0; 0].

(** ** [__init__] *)

(** The keyword arguments of the constructor and their defaults. *)
Module kw.
Record t : Type := mk {
  shares : R;
  reserve_token_holdings : R;
  expected_revenue : R;
  discount_rate : R;
  spot_price : R;
  delegator_activity_rate : R;
  minimum_shares : R;
  smoothing_factor : R;
  delegator_type : Z
}.
Definition defaults : t := mk 0 0 0 (9 / 10) 2 (1 / 2) 0 (9 / 10) 0%Z.
End kw.

(** The constructor runs on the class attribute [Delegator.delegate_counter],
    which it reads for the id and increments last. *)
Definition __init__ (rvs : R * R * R) (a : kw.t) : M Z Delegator :=
  (delegate_counter <- get ;;
   let self_id := delegate_counter in
   self_time_factor <- eval (pydiv 1 (1 - kw.discount_rate a)) ;;
   let self_delegator_type :=
     if Z.eq_dec (kw.delegator_type a) 0%Z
     then ((self_id - 1) mod 3 + 1)%Z
     else kw.delegator_type a in
   self_component_weights <-
     eval (get_component_weights rvs self_delegator_type) ;;
   modify (fun c => (c + 1)%Z) ;;
   ret {| id := self_id;
          _unvested_shares := {[ 0%Z := kw.shares a ]};
          vested_shares := 0;
          revenue_token_holdings := 0;
          reserve_token_holdings := kw.reserve_token_holdings a;
          expected_revenue := kw.expected_revenue a;
          discount_rate := kw.discount_rate a;
          time_factor := self_time_factor;
          delegator_activity_rate := kw.delegator_activity_rate a;
          minimum_shares := kw.minimum_shares a;
          avg_delta_price := 0;
          regression_to_mean_private_price := kw.spot_price a;
          value_private_price := kw.spot_price a;
          trendline_private_price := kw.spot_price a;
          delegator_type := self_delegator_type;
          component_weights := self_component_weights;
          private_price := 0;
          smoothing_factor := kw.smoothing_factor a;
          cost_basis := 0;
          unrealized_gains_from_shares := 0;
          realized_gains_from_shares := 0;
          realized_gains_from_dividends := 0 |})%py.

(** ** [test_weights_normalized] *)

(** [sum(w)] of Python over a sequence of numbers. *)
Definition py_sum (w : list R) : R := fold_left Rplus w 0.

(** The test of the module: it samples the weights of the mixed type and
    asserts that their sum exceeds 1 by less than the tolerance. *)
Definition test_weights_normalized (rvs : R * R * R) : result unit :=
  match get_component_weights rvs 0 with
  | Ok w =>
      let tolerance := 1 / 10000 in
      if Rlt_dec (py_sum w - 1) tolerance then Ok tt else Raise AssertionError
  | Raise e => Raise e
  | NonReal => NonReal
  end.

(** ** Sample objects *)

(** What the constructor builds from the arguments [a] as the first object
    of a process (counter 0) when the type is left unset, after the
    scheduler has set the private price to [p]. *)
Definition first_delegator (a : kw.t) (p : R) : Delegator :=
  {| id := 0;
     _unvested_shares := {[ 0%Z := kw.shares a ]};
     vested_shares := 0;
     revenue_token_holdings := 0;
     reserve_token_holdings := kw.reserve_token_holdings a;
     expected_revenue := kw.expected_revenue a;
     discount_rate := kw.discount_rate a;
     time_factor := 1 / (1 - kw.discount_rate a);
     delegator_activity_rate := kw.delegator_activity_rate a;
     minimum_shares := kw.minimum_shares a;
     avg_delta_price := 0;
     regression_to_mean_private_price := kw.spot_price a;
     value_private_price := kw.spot_price a;
     trendline_private_price := kw.spot_price a;
     delegator_type := 3;
     component_weights := [0; 0; 1];
     private_price := p;
     smoothing_factor := kw.smoothing_factor a;
     cost_basis := 0;
     unrealized_gains_from_shares := 0;
     realized_gains_from_shares := 0;
     realized_gains_from_dividends := 0 |}.

(** No share balance of the object is negative. *)
Definition shares_nonneg (d : Delegator) : Prop :=
  0 <= vested_shares d /\ map_Forall (fun _ v => 0 <= v) (_unvested_shares d).

(** The balances a call to [buy_or_sell] is meant to keep in order: no
    negative reserve or share balance, and vested shares, once there are
    any, at or above the floor. *)
Definition solvent (d : Delegator) : Prop :=
  0 <= reserve_token_holdings d
  /\ shares_nonneg d
  /\ (vested_shares d > 0 -> minimum_shares d <= vested_shares d).

(** ** Numbers of moderate size *)

(** The model computes over the reals, where no square overflows and no
    difference of distinct numbers is zero.  The floats and ints of the
    code agree with that only on numbers of moderate size: [x ** 2]
    raises [OverflowError] beyond the range of a float, a square that
    underflows or an int beyond 2^53 that is converted to a float can turn
    a divisor into zero.  [moderate] bounds a number by a billion. *)
Definition moderate (x : R) : Prop := Rabs x <= 10 ^ 9.

(** A pool with supply and reserve between a billionth and a billion. *)
Definition moderate_pool (supply reserve : R) : Prop :=
  (/ 10 ^ 9 <= supply <= 10 ^ 9) /\ (/ 10 ^ 9 <= reserve <= 10 ^ 9).

(** The numbers of the object that [buy_or_sell] reads. *)
Definition moderate_agent (d : Delegator) : Prop :=
  moderate (private_price d)
  /\ moderate (reserve_token_holdings d)
  /\ moderate (shares d)
  /\ moderate (cost_basis d)
  /\ moderate (realized_gains_from_shares d).

(** ** The floor clip on floats *)


(** Unfolding the monad of the methods. *)
Ltac run := unfold bind, eval, get, modify, ret in *.

(** * Properties *)

(** ** Arithmetic of the outcomes *)

Lemma pydiv_ok (a b : R) : b <> 0 -> pydiv a b = Ok (a / b).
Proof. intros Hb. unfold pydiv. destruct (Req_dec_T b 0); [contradiction | reflexivity]. Qed.

Lemma pydiv_zero (a : R) : pydiv a 0 = Raise ZeroDivisionError.
Proof. unfold pydiv. destruct (Req_dec_T 0 0); [reflexivity | congruence]. Qed.

Lemma pydiv_Ok_inv (a b q : R) : pydiv a b = Ok q -> b <> 0 /\ q = a / b.
Proof. unfold pydiv. destruct (Req_dec_T b 0); intros H; inversion H; auto. Qed.

Lemma pydiv_Raise_inv (a b : R) (e : exn) :
  pydiv a b = Raise e -> b = 0 /\ e = ZeroDivisionError.
Proof. unfold pydiv. destruct (Req_dec_T b 0); intros H; inversion H; auto. Qed.

Lemma pydiv_real (a b : R) : pydiv a b <> NonReal.
Proof. unfold pydiv. destruct (Req_dec_T b 0); discriminate. Qed.

Lemma pow_half_ok (x : R) : 0 <= x -> pow_half x = Ok (sqrt x).
Proof. intros Hx. unfold pow_half. destruct (Rlt_dec x 0); [lra | reflexivity]. Qed.

Lemma pow_half_Ok_inv (x y : R) : pow_half x = Ok y -> 0 <= x /\ y = sqrt x.
Proof. unfold pow_half. destruct (Rlt_dec x 0); intros H; inversion H. split; [lra | reflexivity]. Qed.

Lemma pow_half_no_raise (x : R) (e : exn) : pow_half x <> Raise e.
Proof. unfold pow_half. destruct (Rlt_dec x 0); discriminate. Qed.

(** Deciding comparisons whose answer is known. *)
Lemma Rgt_dec_true {A} (a b : R) (x y : A) :
  a > b -> (if Rgt_dec a b then x else y) = x.
Proof. intros H. destruct (Rgt_dec a b); [reflexivity | contradiction]. Qed.

Lemma Rgt_dec_false {A} (a b : R) (x y : A) :
  ~ a > b -> (if Rgt_dec a b then x else y) = y.
Proof. intros H. destruct (Rgt_dec a b); [contradiction | reflexivity]. Qed.

Lemma Rlt_dec_true {A} (a b : R) (x y : A) :
  a < b -> (if Rlt_dec a b then x else y) = x.
Proof. intros H. destruct (Rlt_dec a b); [reflexivity | contradiction]. Qed.

Lemma Rlt_dec_false {A} (a b : R) (x y : A) :
  ~ a < b -> (if Rlt_dec a b then x else y) = y.
Proof. intros H. destruct (Rlt_dec a b); [contradiction | reflexivity]. Qed.

Lemma Req_dec_T_true {A} (a b : R) (x y : A) :
  a = b -> (if Req_dec_T a b then x else y) = x.
Proof. intros H. destruct (Req_dec_T a b); [reflexivity | contradiction]. Qed.

Lemma sqrt_gt_1 (x : R) : 1 < x -> 1 < sqrt x.
Proof.
  intros Hx. rewrite <- sqrt_1 at 1. apply sqrt_lt_1; lra.
Qed.

(** ** The sum of the unvested shares *)

Lemma sum_values_empty : sum_values ∅ = 0.
Proof. apply map_fold_empty. Qed.

Lemma sum_values_insert_fresh (m : gmap Z R) (k : Z) (v : R) :
  m !! k = None -> sum_values (<[k := v]> m) = v + sum_values m.
Proof.
  intros Hk. unfold sum_values.
  apply (map_fold_insert_L (fun (_ : Z) (s acc : R) => s + acc)); [| exact Hk].
  intros; lra.
Qed.

Lemma sum_values_insert (m : gmap Z R) (k : Z) (v : R) :
  sum_values (<[k := v]> m) = v + sum_values (delete k m).
Proof.
  rewrite <- (insert_delete_eq m k v).
  apply sum_values_insert_fresh, lookup_delete_eq.
Qed.

Lemma sum_values_singleton (k : Z) (v : R) : sum_values {[ k := v ]} = v.
Proof.
  rewrite <- insert_empty, sum_values_insert_fresh by apply lookup_empty.
  rewrite sum_values_empty. lra.
Qed.

Lemma sum_values_nonneg (m : gmap Z R) :
  map_Forall (fun _ v => 0 <= v) m -> 0 <= sum_values m.
Proof.
  induction m as [| k v m Hk IH] using map_ind; intros Hall.
  - rewrite sum_values_empty. lra.
  - rewrite sum_values_insert_fresh by exact Hk.
    apply map_Forall_insert in Hall; [| exact Hk].
    destruct Hall as [Hv Hm]. specialize (IH Hm). lra.
Qed.

Lemma unvested_shares_set_shares (t : Z) (s : R) (d : Delegator) :
  unvested_shares (set_shares t s d) = s + sum_values (delete t (_unvested_shares d)).
Proof. unfold unvested_shares, set_shares. cbn. apply sum_values_insert. Qed.

Lemma shares_set_reserve_token_holdings (h : R) (d : Delegator) :
  shares (set_reserve_token_holdings h d) = shares d.
Proof. reflexivity. Qed.

Lemma shares_after_buy_pos (t : Z) (cs : R) (d : Delegator) :
  shares_nonneg d -> cs > 0 -> shares (set_shares t cs d) > 0.
Proof.
  intros [Hv Hu] Hcs. unfold shares.
  rewrite unvested_shares_set_shares.
  assert (0 <= sum_values (delete t (_unvested_shares d))).
  { apply sum_values_nonneg. apply map_Forall_delete. exact Hu. }
  replace (vested_shares (set_shares t cs d)) with (vested_shares d) by reflexivity.
  lra.
Qed.

Lemma set_reserve_token_holdings_same (d : Delegator) :
  set_reserve_token_holdings (reserve_token_holdings d - 0) d = d.
Proof. destruct d. unfold set_reserve_token_holdings. cbn. f_equal. lra. Qed.

(** ** The blocks of [buy_or_sell] *)

(** A BUY that returns has spent the sized amount, clipped to the reserve
    held, and has stored the minted shares under [timestep]. *)
Lemma buy_Ok_inv (supply reserve : R) (t : Z) (d d' : Delegator) (cs ar : R) :
  buy supply reserve t d = (Ok (cs, ar), d') ->
  reserve <> 0 /\
  ar = Rmin ((private_price d ^ 2 * supply ^ 2 - 4 * reserve ^ 2) / (4 * reserve))
            (reserve_token_holdings d) /\
  0 <= 1 + ar / reserve /\
  cs = supply * sqrt (1 + ar / reserve) - supply /\
  d' = set_shares t cs d.
Proof.
  unfold buy. run.
  destruct (pydiv _ (4 * reserve)) as [q | |] eqn:Hq; try discriminate.
  apply pydiv_Ok_inv in Hq as [Hr4 ->].
  set (f := (private_price d ^ 2 * supply ^ 2 - 4 * reserve ^ 2) / (4 * reserve)).
  assert (Hclip : (if Rgt_dec f (reserve_token_holdings d)
                   then reserve_token_holdings d else f)
                  = Rmin f (reserve_token_holdings d)).
  { unfold Rmin. destruct (Rgt_dec f _), (Rle_dec f _); lra. }
  rewrite Hclip.
  destruct (pydiv _ reserve) as [q | |] eqn:Hq; try discriminate.
  apply pydiv_Ok_inv in Hq as [Hr ->].
  destruct (pow_half _) as [y | |] eqn:Hy; try discriminate.
  apply pow_half_Ok_inv in Hy as [Hbase ->].
  intros H. inversion H; subst. auto.
Qed.

(** Until it has sized the trade, a BUY assigns nothing. *)
Lemma buy_fail_state (supply reserve : R) (t : Z) (d d' : Delegator)
    (r : result (R * R)) :
  buy supply reserve t d = (r, d') -> (forall x, r <> Ok x) -> d' = d.
Proof.
  unfold buy. run.
  destruct (pydiv _ (4 * reserve)); [| intros H; inversion H; auto ..].
  destruct (pydiv _ reserve); [| intros H; inversion H; auto ..].
  destruct (pow_half _); intros H; inversion H; subst; auto.
  intros Hr. exfalso. eapply Hr. reflexivity.
Qed.

(** Where a BUY goes through. *)
Lemma buy_run (supply reserve : R) (t : Z) (d : Delegator) :
  let ar := Rmin ((private_price d ^ 2 * supply ^ 2 - 4 * reserve ^ 2) / (4 * reserve))
                 (reserve_token_holdings d) in
  let cs := supply * sqrt (1 + ar / reserve) - supply in
  reserve <> 0 ->
  0 <= 1 + ar / reserve ->
  buy supply reserve t d = (Ok (cs, ar), set_shares t cs d).
Proof.
  intros ar cs Hr Hbase. unfold buy. run.
  rewrite pydiv_ok by lra.
  set (f := (private_price d ^ 2 * supply ^ 2 - 4 * reserve ^ 2) / (4 * reserve)) in *.
  assert (Hclip : (if Rgt_dec f (reserve_token_holdings d)
                   then reserve_token_holdings d else f) = ar).
  { unfold ar, Rmin. destruct (Rgt_dec f _), (Rle_dec f _); lra. }
  rewrite Hclip, (pydiv_ok _ _ Hr), (pow_half_ok _ Hbase). reflexivity.
Qed.

(** The burn a SELL settles on: the desired burn, clipped to the vested
    shares and then to what the floor [minimum_shares] leaves. *)
Lemma sell_clip (desired vested floor : R) :
  (let b := if Rgt_dec desired vested then vested else desired in
   if Rlt_dec (vested - b) floor then vested - floor else b)
  = Rmin (Rmin desired vested) (vested - floor).
Proof.
  cbv zeta. unfold Rmin.
  destruct (Rgt_dec desired vested), (Rle_dec desired vested); try lra;
    match goal with |- context [Rlt_dec ?a ?b] => destruct (Rlt_dec a b) end;
    match goal with |- context [Rle_dec ?a ?b] => destruct (Rle_dec a b) end; lra.
Qed.

(** Clipping the burn keeps it within the vested shares and above the
    floor. *)
Lemma burn_bounds (desired vested floor : R) :
  let burned := Rmin (Rmin desired vested) (vested - floor) in
  burned <= vested /\ floor <= vested - burned.
Proof.
  cbv zeta. pose proof (Rmin_r (Rmin desired vested) (vested - floor)).
  pose proof (Rmin_l (Rmin desired vested) (vested - floor)).
  pose proof (Rmin_r desired vested). lra.
Qed.

Lemma sell_Ok_inv (supply reserve : R) (d d' : Delegator) (cs ar : R) :
  sell supply reserve d = (Ok (cs, ar), d') ->
  reserve <> 0 /\
  ((vested_shares d > 0 /\ supply <> 0 /\
    let burned := Rmin (Rmin ((2 * reserve * supply - private_price d * supply ^ 2)
                              / (2 * reserve)) (vested_shares d))
                       (vested_shares d - minimum_shares d) in
    cs = - burned /\
    ar = - (reserve - reserve * (1 - burned / supply) ^ 2) /\
    d' = set_vested_shares (vested_shares d - burned) d)
   \/ (~ vested_shares d > 0 /\ cs = 0 /\ ar = 0 /\ d' = d)).
Proof.
  unfold sell. run.
  destruct (pydiv _ (2 * reserve)) as [q | |] eqn:Hq; try discriminate.
  apply pydiv_Ok_inv in Hq as [Hr2 ->].
  intros H. split; [lra |].
  destruct (Rgt_dec (vested_shares d) 0) as [Hv | Hv].
  - pose proof (sell_clip ((2 * reserve * supply - private_price d * supply ^ 2)
                           / (2 * reserve)) (vested_shares d) (minimum_shares d)) as Hc.
    cbv zeta in Hc. rewrite Hc in H. clear Hc.
    destruct (pydiv _ supply) as [q | |] eqn:Hq; try discriminate.
    apply pydiv_Ok_inv in Hq as [Hs ->].
    inversion H; subst. left. auto.
  - inversion H; subst. right. auto.
Qed.

Lemma sell_fail_state (supply reserve : R) (d d' : Delegator)
    (r : result (R * R)) :
  sell supply reserve d = (r, d') -> (forall x, r <> Ok x) -> d' = d.
Proof.
  unfold sell. run.
  destruct (pydiv _ (2 * reserve)); [| intros H; inversion H; auto ..].
  destruct (Rgt_dec (vested_shares d) 0).
  - destruct (pydiv _ supply); intros H; inversion H; subst; auto.
    intros Hr. exfalso. eapply Hr. reflexivity.
  - intros H; inversion H; subst. intros Hr. exfalso. eapply Hr. reflexivity.
Qed.

(** A SELL with vested shares returns as soon as its two divisors are
    not zero. *)
Lemma sell_run (supply reserve : R) (d : Delegator) :
  let burned := Rmin (Rmin ((2 * reserve * supply - private_price d * supply ^ 2)
                            / (2 * reserve)) (vested_shares d))
                     (vested_shares d - minimum_shares d) in
  reserve <> 0 -> supply <> 0 -> vested_shares d > 0 ->
  sell supply reserve d
  = (Ok (- burned, - (reserve - reserve * (1 - burned / supply) ^ 2)),
     set_vested_shares (vested_shares d - burned) d).
Proof.
  intros burned Hr Hs Hv. unfold sell. run.
  rewrite pydiv_ok by lra. rewrite (Rgt_dec_true _ _ _ _ Hv).
  pose proof (sell_clip ((2 * reserve * supply - private_price d * supply ^ 2)
                         / (2 * reserve)) (vested_shares d) (minimum_shares d)) as Hc.
  cbv zeta in Hc. rewrite Hc. fold burned.
  rewrite (pydiv_ok _ _ Hs). reflexivity.
Qed.

(** Without vested shares a SELL sizes the burn and does nothing. *)
Lemma sell_nothing_vested (supply reserve : R) (d : Delegator) :
  reserve <> 0 -> ~ vested_shares d > 0 ->
  sell supply reserve d = (Ok (0, 0), d).
Proof.
  intros Hr Hv. unfold sell. run.
  rewrite pydiv_ok by lra. rewrite (Rgt_dec_false _ _ _ _ Hv). reflexivity.
Qed.

(** The bookkeeping assigns the three ledgers of the shares and nothing
    else, whatever its outcome. *)
Lemma bookkeeping_frame (supply reserve osh ocb cs ar : R) (s s' : Delegator)
    (r : result unit) :
  bookkeeping supply reserve osh ocb cs ar s = (r, s') ->
  _unvested_shares s' = _unvested_shares s /\
  vested_shares s' = vested_shares s /\
  reserve_token_holdings s' = reserve_token_holdings s /\
  realized_gains_from_dividends s' = realized_gains_from_dividends s.
Proof.
  unfold bookkeeping. run.
  destruct (pydiv _ (supply + cs)); [| intros H; inversion H; subst; auto ..].
  destruct (Req_dec_T cs 0); [intros H; inversion H; subst; auto |].
  destruct (pydiv ar cs); [| intros H; inversion H; subst; auto ..].
  destruct (Rgt_dec ar 0).
  - destruct (pydiv _ (shares s)); intros H; inversion H; subst; auto.
  - destruct (Rlt_dec ar 0); intros H; inversion H; subst; auto.
Qed.

(** The cost basis after the bookkeeping: reassigned on a trade that
    created shares for a positive amount of reserve, kept otherwise. *)
Lemma bookkeeping_cost_basis (supply reserve osh ocb cs ar : R)
    (s s' : Delegator) (r : result unit) :
  bookkeeping supply reserve osh ocb cs ar s = (r, s') ->
  (r = Ok tt /\ cs <> 0 /\ ar > 0 /\ shares s <> 0 /\
   cost_basis s' = (ocb * osh + ar / cs * cs) / shares s)
  \/ ((r <> Ok tt \/ cs = 0 \/ ~ ar > 0) /\ cost_basis s' = cost_basis s).
Proof.
  unfold bookkeeping. run.
  destruct (pydiv _ (supply + cs));
    [| intros H; inversion H; subst; right; split; auto; left; discriminate ..].
  destruct (Req_dec_T cs 0) as [Hcs | Hcs];
    [intros H; inversion H; subst; right; auto |].
  rewrite (pydiv_ok _ _ Hcs).
  destruct (Rgt_dec ar 0) as [Har | Har].
  - destruct (pydiv _ (shares s)) as [q | |] eqn:Hq;
      intros H; inversion H; subst;
      [| right; split; auto; left; discriminate ..].
    apply pydiv_Ok_inv in Hq as [Hsh ->]. left. cbn. auto 6.
  - destruct (Rlt_dec ar 0); intros H; inversion H; subst; right; auto.
Qed.

(** Where the bookkeeping goes through. *)
Lemma bookkeeping_run (supply reserve osh ocb cs ar : R) (s : Delegator) :
  supply + cs <> 0 ->
  (cs <> 0 -> ar > 0 -> shares s <> 0) ->
  exists s', bookkeeping supply reserve osh ocb cs ar s = (Ok tt, s').
Proof.
  intros Hsc Hsh. unfold bookkeeping. run.
  rewrite (pydiv_ok _ _ Hsc).
  destruct (Req_dec_T cs 0) as [Hcs | Hcs]; [eauto |].
  rewrite (pydiv_ok _ _ Hcs).
  destruct (Rgt_dec ar 0) as [Har | Har].
  - rewrite (pydiv_ok _ _ (Hsh Hcs Har)). eauto.
  - destruct (Rlt_dec ar 0); eauto.
Qed.

(** With no created shares the bookkeeping assigns nothing. *)
(** Runs the bookkeeping in the goal where it goes through; what is left
    are its two side conditions and the goal with its final object. *)
Ltac bookkeeping_returns d Hd :=
  match goal with
  | |- context [bookkeeping ?a1 ?a2 ?a3 ?a4 ?a5 ?a6 ?s] =>
      destruct (bookkeeping_run a1 a2 a3 a4 a5 a6 s) as [d Hd];
      [ | | rewrite Hd ]
  end.

Lemma bookkeeping_nothing_created (supply reserve osh ocb ar : R)
    (s s' : Delegator) (r : result unit) :
  bookkeeping supply reserve osh ocb 0 ar s = (r, s') -> s' = s.
Proof.
  unfold bookkeeping. run.
  destruct (pydiv _ (supply + 0)); [| intros H; inversion H; auto ..].
  rewrite Req_dec_T_true by reflexivity. intros H; inversion H; auto.
Qed.

Lemma trade_buy (supply reserve spot : R) (t : Z) (d : Delegator) :
  private_price d > spot -> trade supply reserve spot t d = buy supply reserve t d.
Proof. intros H. unfold trade. run. rewrite (Rgt_dec_true _ _ _ _ H). reflexivity. Qed.

Lemma trade_sell (supply reserve spot : R) (t : Z) (d : Delegator) :
  private_price d < spot -> trade supply reserve spot t d = sell supply reserve d.
Proof.
  intros H. unfold trade. run.
  rewrite Rgt_dec_false by lra. rewrite (Rlt_dec_true _ _ _ _ H). reflexivity.
Qed.

Lemma trade_hold (supply reserve spot : R) (t : Z) (d : Delegator) :
  private_price d = spot -> trade supply reserve spot t d = (Ok (0, 0), d).
Proof.
  intros H. unfold trade. run.
  rewrite Rgt_dec_false by lra. rewrite Rlt_dec_false by lra. reflexivity.
Qed.

Lemma trade_cost_basis (supply reserve spot : R) (t : Z) (d d1 : Delegator)
    (r : result (R * R)) :
  trade supply reserve spot t d = (r, d1) -> cost_basis d1 = cost_basis d.
Proof.
  unfold trade. run.
  destruct (Rgt_dec (private_price d) spot).
  - destruct r as [[cs ar] | e |]; intros Hb.
    + apply buy_Ok_inv in Hb as (_ & _ & _ & _ & ->). reflexivity.
    + apply buy_fail_state in Hb as ->; [reflexivity | discriminate].
    + apply buy_fail_state in Hb as ->; [reflexivity | discriminate].
  - destruct (Rlt_dec (private_price d) spot).
    + destruct r as [[cs ar] | e |]; intros Hb.
      * apply sell_Ok_inv in Hb as (_ & [(_ & _ & Hb) | (_ & _ & _ & ->)]);
          [| reflexivity].
        cbv zeta in Hb. destruct Hb as (_ & _ & ->). reflexivity.
      * apply sell_fail_state in Hb as ->; [reflexivity | discriminate].
      * apply sell_fail_state in Hb as ->; [reflexivity | discriminate].
    + intros H; inversion H; reflexivity.
Qed.

(** ** [buy_or_sell] as the sequence of its blocks *)

Lemma buy_or_sell_below (supply reserve spot thr : R) (t : Z) (d : Delegator) :
  pct_price_diff d spot < thr ->
  buy_or_sell supply reserve spot thr t d = (Ok (0, 0), d).
Proof.
  intros Hlow. unfold buy_or_sell. run.
  rewrite (Rlt_dec_true _ _ _ _ Hlow). reflexivity.
Qed.

Lemma buy_or_sell_acts (supply reserve spot thr : R) (t : Z) (d : Delegator) :
  ~ pct_price_diff d spot < thr ->
  buy_or_sell supply reserve spot thr t d
  = match trade supply reserve spot t d with
    | (Ok sized, d1) =>
        match bookkeeping supply reserve (shares d) (cost_basis d)
                (fst sized) (snd sized)
                (set_reserve_token_holdings
                   (reserve_token_holdings d1 - snd sized) d1) with
        | (Ok _, d2) => (Ok (fst sized, snd sized), d2)
        | (Raise e, d2) => (Raise e, d2)
        | (NonReal, d2) => (NonReal, d2)
        end
    | (Raise e, d1) => (Raise e, d1)
    | (NonReal, d1) => (NonReal, d1)
    end.
Proof.
  intros Hact. unfold buy_or_sell. run.
  rewrite (Rlt_dec_false _ _ _ _ Hact).
  destruct (trade supply reserve spot t d) as [[sized | e |] d1]; reflexivity.
Qed.

(** A returning call that passed the threshold, block by block. *)
Lemma buy_or_sell_Ok_inv (supply reserve spot thr : R) (t : Z)
    (d d' : Delegator) (cs ar : R) :
  ~ pct_price_diff d spot < thr ->
  buy_or_sell supply reserve spot thr t d = (Ok (cs, ar), d') ->
  exists d1,
    trade supply reserve spot t d = (Ok (cs, ar), d1)
    /\ bookkeeping supply reserve (shares d) (cost_basis d) cs ar
         (set_reserve_token_holdings (reserve_token_holdings d1 - ar) d1)
       = (Ok tt, d').
Proof.
  intros Hact. rewrite buy_or_sell_acts by exact Hact.
  destruct (trade supply reserve spot t d) as [[[cs1 ar1] | e |] d1];
    try discriminate.
  cbn [fst snd].
  destruct (bookkeeping _ _ _ _ _ _ _) as [[[] | e |] d2] eqn:Hbk;
    try discriminate.
  intros H; inversion H; subst. exists d1. split; [reflexivity | exact Hbk].
Qed.

(** The base of the square root of a BUY that is not clipped is a square. *)
Lemma buy_base_square (p s r : R) :
  r <> 0 ->
  1 + (p ^ 2 * s ^ 2 - 4 * r ^ 2) / (4 * r) / r = (p * s / (2 * r)) ^ 2.
Proof. intros Hr. field. exact Hr. Qed.

Lemma buy_base_pos (p s r h : R) :
  r > 0 -> s > 0 -> p > 0 -> 0 <= h ->
  0 < 1 + Rmin ((p ^ 2 * s ^ 2 - 4 * r ^ 2) / (4 * r)) h / r.
Proof.
  intros Hr Hs Hp Hh. unfold Rmin.
  destruct (Rle_dec _ h) as [Hle | Hgt].
  - rewrite buy_base_square by lra.
    assert (0 < p * s / (2 * r)).
    { apply Rdiv_lt_0_compat; [apply Rmult_lt_0_compat |]; lra. }
    apply pow_lt. assumption.
  - assert (0 <= h / r).
    { unfold Rdiv. apply Rmult_le_pos; [lra |].
      left. apply Rinv_0_lt_compat. lra. }
    lra.
Qed.

(** A SELL is paid a positive [added_reserve] only for a negative burn. *)
Lemma sell_added_reserve_pos (r s b : R) :
  r > 0 -> s > 0 -> b < s ->
  - (r - r * (1 - b / s) ^ 2) > 0 -> b < 0.
Proof.
  intros Hr Hs Hb Hpos.
  assert (Hx : b / s < 1).
  { apply (Rmult_lt_reg_r s); [lra |].
    unfold Rdiv. rewrite Rmult_assoc, Rinv_l by lra. lra. }
  assert (Hb' : b = b / s * s) by (field; lra).
  set (x := b / s) in *.
  set (k := (1 - x) * (1 - x) - 1).
  assert (Hk : r * k > 0) by (unfold k; simpl in Hpos; lra).
  assert (Hk0 : k > 0) by nra.
  assert (Hx0 : x < 0) by (unfold k in Hk0; nra).
  nra.
Qed.

(** On a pool with positive supply and reserve and a spot price that is
    not negative, an object that holds no negative balance and less vested
    shares than the whole supply gets its call answered. *)
Lemma buy_or_sell_returns
    (supply reserve spot thr : R) (t : Z) (d : Delegator) :
  supply > 0 -> reserve > 0 -> 0 <= spot ->
  0 <= reserve_token_holdings d ->
  shares_nonneg d ->
  vested_shares d < supply ->
  exists cs ar d', buy_or_sell supply reserve spot thr t d = (Ok (cs, ar), d').
Proof.
  intros Hs Hr Hspot Hh Hnn Hall.
  destruct (Rlt_dec (pct_price_diff d spot) thr) as [Hlow | Hact].
  { rewrite buy_or_sell_below by exact Hlow. eauto. }
  rewrite buy_or_sell_acts by exact Hact.
  destruct (Rtotal_order (private_price d) spot) as [Hsell | [Hhold | Hbuy]].
  - (* SELL *)
    rewrite trade_sell by exact Hsell.
    destruct (Rgt_dec (vested_shares d) 0) as [Hv | Hv].
    + rewrite sell_run by lra. cbn [fst snd].
      pose proof (burn_bounds ((2 * reserve * supply - private_price d * supply ^ 2)
                               / (2 * reserve))
                              (vested_shares d) (minimum_shares d)) as [Hb _].
      set (b := Rmin _ (vested_shares d - minimum_shares d)) in *.
      bookkeeping_returns d' Hd'; [lra | | eauto].
      intros _ Hpos.
      apply sell_added_reserve_pos in Hpos; [| lra ..].
      destruct Hnn as [_ Hu]. apply sum_values_nonneg in Hu.
      unfold shares, unvested_shares. cbn. lra.
    + rewrite sell_nothing_vested by lra. cbn [fst snd].
      bookkeeping_returns d' Hd'; [lra | intros Hc; lra | eauto].
  - (* neither *)
    rewrite trade_hold by exact Hhold. cbn [fst snd].
    bookkeeping_returns d' Hd'; [lra | intros Hc; lra | eauto].
  - (* BUY *)
    rewrite trade_buy by exact Hbuy.
    pose proof (buy_base_pos (private_price d) supply reserve
                  (reserve_token_holdings d) Hr Hs ltac:(lra) Hh) as Hbase.
    rewrite buy_run by lra. cbn [fst snd].
    set (ar := Rmin _ (reserve_token_holdings d)) in *.
    pose proof (sqrt_lt_R0 _ Hbase) as Hroot.
    bookkeeping_returns d' Hd'; [nra | | eauto].
    intros _ Hpos. rewrite shares_set_reserve_token_holdings.
    assert (Hgt : 1 < 1 + ar / reserve).
    { assert (0 < ar / reserve) by (apply Rdiv_lt_0_compat; lra). lra. }
    apply sqrt_gt_1 in Hgt.
    assert (Hcs : supply * sqrt (1 + ar / reserve) - supply > 0) by nra.
    pose proof (shares_after_buy_pos t _ d Hnn Hcs). lra.
Qed.

(** ** Construction *)

Lemma py_index_3_inv (i : Z) (n : nat) :
  py_index 3 i = Ok n ->
  (n < 3)%nat /\ ((0 <= i < 3)%Z /\ n = Z.to_nat i
                  \/ (-3 <= i < 0)%Z /\ n = Z.to_nat (3 + i)).
Proof.
  unfold py_index.
  destruct ((0 <=? i)%Z && (i <? Z.of_nat 3)%Z) eqn:H1.
  - apply andb_true_iff in H1 as [H0%Z.leb_le H3%Z.ltb_lt].
    intros H; inversion H; subst. lia.
  - destruct ((- Z.of_nat 3 <=? i)%Z && (i <? 0)%Z) eqn:H2; [| discriminate].
    apply andb_true_iff in H2 as [H0%Z.leb_le H3%Z.ltb_lt].
    intros H; inversion H; subst. lia.
Qed.

Lemma get_component_weights_pure (rvs : R * R * R) (ty : Z) :
  ty <> 0%Z ->
  get_component_weights rvs ty = alter_item (fun _ => 1) (ty - 1)%Z [0; 0; 0].
Proof.
  intros Hty. unfold get_component_weights.
  destruct (Z.eq_dec ty 0%Z); [contradiction | reflexivity].
Qed.

(** The type [__init__] stores is never the unset one. *)
Lemma resolved_type_nonzero (given c : Z) :
  (if Z.eq_dec given 0%Z then ((c - 1) mod 3 + 1)%Z else given) <> 0%Z.
Proof.
  destruct (Z.eq_dec given 0%Z); [| assumption].
  pose proof (Z.mod_pos_bound (c - 1) 3). lia.
Qed.

Lemma init_Ok_inv (rvs : R * R * R) (a : kw.t) (c c' : Z) (d : Delegator) :
  __init__ rvs a c = (Ok d, c') ->
  let ty := if Z.eq_dec (kw.delegator_type a) 0%Z
            then ((c - 1) mod 3 + 1)%Z else kw.delegator_type a in
  kw.discount_rate a <> 1 /\ c' = (c + 1)%Z /\
  id d = c /\
  _unvested_shares d = {[ 0%Z := kw.shares a ]} /\
  vested_shares d = 0 /\
  reserve_token_holdings d = kw.reserve_token_holdings a /\
  minimum_shares d = kw.minimum_shares a /\
  delegator_type d = ty /\
  alter_item (fun _ => 1) (ty - 1)%Z [0; 0; 0] = Ok (component_weights d).
Proof.
  unfold __init__. run.
  destruct (pydiv 1 _) as [tf | |] eqn:Htf; try discriminate.
  apply pydiv_Ok_inv in Htf as [Hdr ->].
  rewrite get_component_weights_pure by apply resolved_type_nonzero.
  destruct (alter_item _ _ _) as [w | |] eqn:Hw; try discriminate.
  intros H; inversion H; subst; cbn.
  repeat split; auto. intros Hone. apply Hdr. lra.
Qed.

Lemma init_first (rvs : R * R * R) (a : kw.t) :
  kw.delegator_type a = 0%Z -> kw.discount_rate a <> 1 ->
  __init__ rvs a 0%Z = (Ok (first_delegator a 0), 1%Z).
Proof.
  intros Hty Hdr. unfold __init__. run.
  rewrite pydiv_ok by lra. rewrite Hty. reflexivity.
Qed.

(** The draws of the mixed branch never reach the constructor. *)
Lemma init_rvs_irrelevant (rvs rvs' : R * R * R) (a : kw.t) (c : Z) :
  __init__ rvs a c = __init__ rvs' a c.
Proof.
  unfold __init__. run.
  destruct (pydiv 1 _); try reflexivity.
  rewrite !get_component_weights_pure by apply resolved_type_nonzero.
  reflexivity.
Qed.

(** Item assignment of 1 into three zeros. *)
Lemma one_hot_lookup (i : Z) (w : list R) :
  alter_item (fun _ => 1) i [0; 0; 0] = Ok w ->
  exists n, py_index 3 i = Ok n
            /\ length w = 3%nat
            /\ forall j, (j < 3)%nat ->
                         w !! j = Some (if Nat.eq_dec j n then 1 else 0).
Proof.
  unfold alter_item. cbn [length].
  destruct (py_index 3 i) as [n | e |] eqn:Hn; try discriminate.
  intros H; inversion H; subst; clear H.
  exists n. split; [reflexivity |].
  apply py_index_3_inv in Hn as [Hlt _].
  destruct n as [| [| [| n]]]; try lia;
    (split; [reflexivity |]);
    intros [| [| [| j]]] Hj; try lia; reflexivity.
Qed.

Lemma first_delegator_shares_nonneg (a : kw.t) (p : R) :
  0 <= kw.shares a -> shares_nonneg (first_delegator a p).
Proof.
  intros Hs. split; [cbn; lra |].
  cbn. apply map_Forall_singleton. exact Hs.
Qed.

(** ** The worked examples *)

(** The buy of the worked example: supply 1000, reserve 1000, private
    price 3 and 500 of reserve held. *)
Lemma example_buy_sized :
  Rmin ((3 ^ 2 * 1000 ^ 2 - 4 * 1000 ^ 2) / (4 * 1000)) 500 = 500.
Proof.
  replace ((3 ^ 2 * 1000 ^ 2 - 4 * 1000 ^ 2) / (4 * 1000)) with 1250 by (simpl; lra).
  apply Rmin_right. lra.
Qed.

Lemma example_pct (d : Delegator) :
  private_price d = 3 -> ~ pct_price_diff d 2 < 1 / 100.
Proof.
  intros Hp. unfold pct_price_diff. rewrite Rgt_dec_true by lra.
  rewrite Hp, Rabs_right; lra.
Qed.

Lemma example_buy (t : Z) (d : Delegator) :
  private_price d = 3 -> reserve_token_holdings d = 500 -> shares_nonneg d ->
  exists d',
    buy_or_sell 1000 1000 2 (1 / 100) t d
    = (Ok (1000 * sqrt (3 / 2) - 1000, 500), d')
    /\ _unvested_shares d' = <[t := 1000 * sqrt (3 / 2) - 1000]> (_unvested_shares d)
    /\ vested_shares d' = vested_shares d.
Proof.
  intros Hp Hh Hnn.
  rewrite buy_or_sell_acts by (apply example_pct; exact Hp).
  rewrite trade_buy by lra.
  pose proof (buy_run 1000 1000 t d) as Hrun. cbv zeta in Hrun.
  rewrite Hp, Hh, example_buy_sized in Hrun.
  replace (1 + 500 / 1000) with (3 / 2) in Hrun by lra.
  rewrite Hrun by lra. clear Hrun. cbn [fst snd].
  pose proof (sqrt_gt_1 (3 / 2) ltac:(lra)) as Hroot.
  set (cs := 1000 * sqrt (3 / 2) - 1000) in *.
  assert (Hcs : cs > 0) by (unfold cs; lra).
  bookkeeping_returns d' Hd';
    [ lra
    | intros _ _; rewrite shares_set_reserve_token_holdings;
      pose proof (shares_after_buy_pos t cs d Hnn Hcs); lra
    | apply bookkeeping_frame in Hd' as (Hu & Hv & _) ].
  exists d'. split; [reflexivity |]. rewrite Hu, Hv. split; reflexivity.
Qed.

Lemma example_sell_pct (d : Delegator) :
  private_price d = 1 -> 1 / 100 <= pct_price_diff d 2.
Proof.
  intros Hp. unfold pct_price_diff. rewrite Rgt_dec_true by lra.
  rewrite Hp, Rabs_left; lra.
Qed.

(** ** Dividends *)

(** C4: with [supply > 0], [dividend_value] returns the per-share figure
    [expected_revenue * (1 - owners_share) / supply * exchange_rate *
    time_factor], in which the shares of the object do not appear, and adds
    to [realized_gains_from_dividends] the per-share reserve amount before
    the time correction multiplied by the shares of the object; without
    [supply > 0] it raises the assertion error and assigns nothing. *)
Theorem dividend_value_spec (d : Delegator) (supply owners_share rate : R) :
  (supply > 0 ->
   dividend_value supply owners_share rate d
   = (Ok (expected_revenue d * (1 - owners_share) / supply * rate * time_factor d),
      set_realized_gains_from_dividends
        (realized_gains_from_dividends d
         + expected_revenue d * (1 - owners_share) / supply * rate * shares d) d))
  /\ (~ supply > 0 ->
      dividend_value supply owners_share rate d = (Raise AssertionError, d)).
Proof.
  split; intros Hs; unfold dividend_value; run.
  - rewrite (Rgt_dec_true _ _ _ _ Hs). rewrite pydiv_ok by lra. reflexivity.
  - rewrite (Rgt_dec_false _ _ _ _ Hs). reflexivity.
Qed.

(** The example of the specification: supply 100, owners' share 0.2,
    exchange rate 1, expected revenue 50. *)
Lemma dividend_value_spec_witness :
  let d := first_delegator (kw.mk 10 0 50 (9 / 10) 2 (1 / 2) 0 (9 / 10) 0) 0 in
  dividend_value 100 (2 / 10) 1 d
  = (Ok (50 * (1 - 2 / 10) / 100 * 1 * (1 / (1 - 9 / 10))),
     set_realized_gains_from_dividends
       (0 + 50 * (1 - 2 / 10) / 100 * 1 * shares d) d)
  /\ dividend_value 0 (2 / 10) 1 d = (Raise AssertionError, d).
Proof.
  intros d. split.
  - apply (proj1 (dividend_value_spec d 100 (2 / 10) 1)). lra.
  - apply (proj2 (dividend_value_spec d 0 (2 / 10) 1)). lra.
Defined.

(** ** The threshold *)

Lemma pct_price_diff_eq (d : Delegator) (spot : R) :
  pct_price_diff d spot
  = if Rle_dec spot 0 then 0 else Rabs (private_price d - spot) / spot.
Proof.
  unfold pct_price_diff.
  destruct (Rgt_dec spot 0) as [Hs | Hs], (Rle_dec spot 0) as [Hn | Hn]; try lra.
  unfold Rdiv. rewrite Rabs_mult, Rabs_inv, (Rabs_right spot) by lra.
  reflexivity.
Qed.

(** C6: when the percent price difference (0 for a spot price that is not
    positive, [|private_price - spot_price| / spot_price] otherwise) is
    strictly below the threshold, [buy_or_sell] returns [(0, 0)] and the
    object is left as it was, field for field. *)
Theorem buy_or_sell_below_threshold
    (supply reserve spot thr : R) (t : Z) (d : Delegator) :
  (if Rle_dec spot 0 then 0 else Rabs (private_price d - spot) / spot) < thr ->
  buy_or_sell supply reserve spot thr t d = (Ok (0, 0), d).
Proof.
  intros Hlow. apply buy_or_sell_below. rewrite pct_price_diff_eq. exact Hlow.
Qed.

Lemma buy_or_sell_below_threshold_witness :
  let d := first_delegator (kw.mk 10 500 0 (9 / 10) 2 (1 / 2) 0 (9 / 10) 0) 2.01 in
  buy_or_sell 1000 1000 2 (1 / 100) 7 d = (Ok (0, 0), d).
Proof.
  intros d. apply (buy_or_sell_below_threshold 1000 1000 2 (1 / 100) 7 d).
  destruct (Rle_dec 2 0) as [Hn | Hn]; [lra |].
  cbn. rewrite Rabs_right by lra. lra.
Defined.

(** ** Buying *)

(** C1: a call that takes the BUY branch ([private_price > spot_price],
    percent price difference at least the threshold) and returns has
    [added_reserve = (private_price^2 * supply^2 - 4 * reserve^2) /
    (4 * reserve)] clipped down to [reserve_token_holdings], and
    [created_shares = supply * sqrt (1 + added_reserve / reserve) - supply].
    With supply 1000, reserve 1000, spot price 2, private price 3, 500 of
    reserve held and threshold 0.01, the call returns [added_reserve = 500]
    and [created_shares = 1000 * sqrt 1.5 - 1000], for every object without a
    negative share balance. *)
Theorem buy_or_sell_buy_sizing :
  (forall (supply reserve spot thr : R) (t : Z) (d d' : Delegator) (cs ar : R),
      private_price d > spot ->
      thr <= pct_price_diff d spot ->
      buy_or_sell supply reserve spot thr t d = (Ok (cs, ar), d') ->
      ar = Rmin ((private_price d ^ 2 * supply ^ 2 - 4 * reserve ^ 2) / (4 * reserve))
                (reserve_token_holdings d)
      /\ cs = supply * sqrt (1 + ar / reserve) - supply)
  /\ (forall (t : Z) (d : Delegator),
         private_price d = 3 -> reserve_token_holdings d = 500 ->
         shares_nonneg d ->
         exists d', buy_or_sell 1000 1000 2 (1 / 100) t d
                    = (Ok (1000 * sqrt (15 / 10) - 1000, 500), d')).
Proof.
  split.
  - intros supply reserve spot thr t d d' cs ar Hbuy Hthr.
    rewrite buy_or_sell_acts by lra. rewrite trade_buy by exact Hbuy.
    destruct (buy supply reserve t d) as [[[cs1 ar1] | e |] d1] eqn:Hb;
      try discriminate.
    apply buy_Ok_inv in Hb as (_ & Har & _ & Hcs & _).
    cbn [fst snd]. destruct (bookkeeping _ _ _ _ _ _ _) as [[[] | e |] d2];
      intros H; inversion H; subst; auto.
  - intros t d Hp Hh Hnn.
    destruct (example_buy t d Hp Hh Hnn) as (d' & Hd' & _).
    exists d'. replace (15 / 10) with (3 / 2) by lra. exact Hd'.
Qed.

Lemma buy_or_sell_buy_sizing_witness :
  let d := first_delegator (kw.mk 0 500 0 (9 / 10) 2 (1 / 2) 0 (9 / 10) 0) 3 in
  exists d',
    buy_or_sell 1000 1000 2 (1 / 100) 0 d
    = (Ok (1000 * sqrt (15 / 10) - 1000, 500), d')
    /\ 500 = Rmin ((3 ^ 2 * 1000 ^ 2 - 4 * 1000 ^ 2) / (4 * 1000)) 500
    /\ 1000 * sqrt (15 / 10) - 1000 = 1000 * sqrt (1 + 500 / 1000) - 1000.
Proof.
  intros d.
  assert (Hnn : shares_nonneg d)
    by (apply first_delegator_shares_nonneg; cbn; lra).
  destruct (proj2 buy_or_sell_buy_sizing 0%Z d eq_refl eq_refl Hnn) as [d' Hd'].
  exists d'. split; [exact Hd' |].
  apply (proj1 buy_or_sell_buy_sizing 1000 1000 2 (1 / 100) 0%Z d d' _ _).
  - cbn. lra.
  - apply Rnot_lt_le, example_pct. reflexivity.
  - exact Hd'.
Defined.

(** C2: a call that takes the BUY branch never leaves
    [reserve_token_holdings] negative, whatever the object it starts from:
    the amount spent is at most the reserve held when the call began, and
    the holdings are decremented by exactly that amount.  When the call
    raises instead of returning, the holdings are either still untouched
    or already decremented, and then not negative. *)
Theorem buy_never_overdraws
    (supply reserve spot thr : R) (t : Z) (d d' : Delegator)
    (r : result (R * R)) :
  private_price d > spot ->
  thr <= pct_price_diff d spot ->
  buy_or_sell supply reserve spot thr t d = (r, d') ->
  (forall cs ar, r = Ok (cs, ar) ->
     ar <= reserve_token_holdings d /\
     reserve_token_holdings d' = reserve_token_holdings d - ar /\
     0 <= reserve_token_holdings d')
  /\ (0 <= reserve_token_holdings d'
      \/ reserve_token_holdings d' = reserve_token_holdings d).
Proof.
  intros Hbuy Hthr.
  rewrite buy_or_sell_acts by lra. rewrite trade_buy by exact Hbuy.
  destruct (buy supply reserve t d) as [[[cs1 ar1] | e |] d1] eqn:Hb.
  - apply buy_Ok_inv in Hb as (_ & Har & _ & _ & ->).
    assert (Hle : ar1 <= reserve_token_holdings d) by (rewrite Har; apply Rmin_r).
    clear Har. cbn [fst snd].
    destruct (bookkeeping _ _ _ _ _ _ _) as [u d2] eqn:Hbk.
    apply bookkeeping_frame in Hbk as (_ & _ & Hh & _). cbn in Hh.
    destruct u as [[] | e |]; intros H; inversion H; subst; clear H;
      (split; [intros cs ar Hr; inversion Hr; subst | left]);
      rewrite ?Hh; try split; try split; lra.
  - apply buy_fail_state in Hb as ->; [| discriminate].
    intros H; inversion H; subst. split; [discriminate | right; reflexivity].
  - apply buy_fail_state in Hb as ->; [| discriminate].
    intros H; inversion H; subst. split; [discriminate | right; reflexivity].
Qed.

(** An object that holds 500 of reserve and sizes a buy of 1250 spends the
    500 and ends with none. *)
Lemma buy_never_overdraws_witness :
  let d := first_delegator (kw.mk 0 500 0 (9 / 10) 2 (1 / 2) 0 (9 / 10) 0) 3 in
  exists d',
    buy_or_sell 1000 1000 2 (1 / 100) 0 d
    = (Ok (1000 * sqrt (3 / 2) - 1000, 500), d')
    /\ 500 <= reserve_token_holdings d
    /\ reserve_token_holdings d' = reserve_token_holdings d - 500
    /\ 0 <= reserve_token_holdings d'.
Proof.
  intros d.
  assert (Hnn : shares_nonneg d)
    by (apply first_delegator_shares_nonneg; cbn; lra).
  destruct (example_buy 0 d eq_refl eq_refl Hnn) as (d' & Hd' & _).
  exists d'. split; [exact Hd' |].
  apply (proj1 (buy_never_overdraws 1000 1000 2 (1 / 100) 0 d d' _
                  ltac:(cbn; lra)
                  (Rnot_lt_le _ _ (example_pct d eq_refl)) Hd')
               (1000 * sqrt (3 / 2) - 1000) 500 eq_refl).
Defined.

(** C10: a BUY at timestep [t] that returns has set the entry of the
    unvested shares for [t] to exactly the created shares, whatever was
    stored there, and no other entry.  An object built by the constructor
    holds its initial shares under key 0, so after a buy at timestep 0 its
    unvested shares are the created shares alone; for initial shares
    1000 and the buy of the worked example the total shares fall from 1000
    to [1000 * sqrt 1.5 - 1000]. *)
Theorem buy_overwrites_timestep :
  (forall (supply reserve spot thr : R) (t : Z) (d d' : Delegator) (cs ar : R),
      private_price d > spot ->
      thr <= pct_price_diff d spot ->
      buy_or_sell supply reserve spot thr t d = (Ok (cs, ar), d') ->
      _unvested_shares d' = <[t := cs]> (_unvested_shares d)
      /\ _unvested_shares d' !! t = Some cs)
  /\ (forall (rvs : R * R * R) (a : kw.t) (c c' : Z) (d0 d' : Delegator)
             (p supply reserve spot thr cs ar : R),
         __init__ rvs a c = (Ok d0, c') ->
         p > spot ->
         thr <= pct_price_diff (set_private_price p d0) spot ->
         buy_or_sell supply reserve spot thr 0 (set_private_price p d0)
         = (Ok (cs, ar), d') ->
         shares (set_private_price p d0) = kw.shares a /\ shares d' = cs)
  /\ (exists (d0 d' : Delegator) (c' : Z) (cs ar : R),
         __init__ (1, 1, 1) (kw.mk 1000 500 0 (9 / 10) 2 (1 / 2) 0 (9 / 10) 0) 0%Z
         = (Ok d0, c')
         /\ buy_or_sell 1000 1000 2 (1 / 100) 0 (set_private_price 3 d0)
            = (Ok (cs, ar), d')
         /\ shares d' < shares (set_private_price 3 d0)).
Proof.
  assert (Hgen : forall supply reserve spot thr t d d' cs ar,
             private_price d > spot ->
             thr <= pct_price_diff d spot ->
             buy_or_sell supply reserve spot thr t d = (Ok (cs, ar), d') ->
             _unvested_shares d' = <[t := cs]> (_unvested_shares d)
             /\ vested_shares d' = vested_shares d).
  { intros supply reserve spot thr t d d' cs ar Hbuy Hthr.
    rewrite buy_or_sell_acts by lra. rewrite trade_buy by exact Hbuy.
    destruct (buy supply reserve t d) as [[[cs1 ar1] | e |] d1] eqn:Hb;
      try discriminate.
    apply buy_Ok_inv in Hb as (_ & _ & _ & _ & ->). cbn [fst snd].
    destruct (bookkeeping _ _ _ _ _ _ _) as [u d2] eqn:Hbk.
    apply bookkeeping_frame in Hbk as (Hu & Hv & _).
    destruct u as [[] | e |]; intros H; inversion H; subst.
    rewrite Hu, Hv. split; reflexivity. }
  split; [| split].
  - intros supply reserve spot thr t d d' cs ar Hbuy Hthr Hrun.
    destruct (Hgen _ _ _ _ _ _ _ _ _ Hbuy Hthr Hrun) as [Hu _].
    split; [exact Hu |]. rewrite Hu. apply lookup_insert_eq.
  - intros rvs a c c' d0 d' p supply reserve spot thr cs ar Hinit Hbuy Hthr Hrun.
    apply init_Ok_inv in Hinit as (_ & _ & _ & Hu0 & Hv0 & _).
    destruct (Hgen _ _ _ _ _ (set_private_price p d0) _ _ _ Hbuy Hthr Hrun)
      as [Hu Hv].
    cbn in Hu, Hv. unfold shares, unvested_shares. rewrite Hu, Hv. cbn.
    rewrite Hu0, Hv0, insert_singleton_eq, !sum_values_singleton.
    split; lra.
  - set (a := kw.mk 1000 500 0 (9 / 10) 2 (1 / 2) 0 (9 / 10) 0).
    assert (Hnn : shares_nonneg (first_delegator a 3))
      by (apply first_delegator_shares_nonneg; cbn; lra).
    destruct (example_buy 0 (first_delegator a 3) eq_refl eq_refl Hnn)
      as (d' & Hd' & Hu & Hv).
    exists (first_delegator a 0), d', 1%Z, (1000 * sqrt (3 / 2) - 1000), 500.
    split; [apply init_first; cbn; [reflexivity | lra] |].
    split; [exact Hd' |].
    unfold shares, unvested_shares. rewrite Hu, Hv. cbn.
    rewrite insert_singleton_eq, !sum_values_singleton.
    pose proof (sqrt_lt_1 (3 / 2) (2 * 2) ltac:(lra) ltac:(lra) ltac:(lra)) as Hlt.
    rewrite sqrt_square in Hlt by lra. lra.
Qed.

Lemma buy_overwrites_timestep_witness :
  let d := first_delegator (kw.mk 1000 500 0 (9 / 10) 2 (1 / 2) 0 (9 / 10) 0) 3 in
  exists d',
    buy_or_sell 1000 1000 2 (1 / 100) 0 d
    = (Ok (1000 * sqrt (3 / 2) - 1000, 500), d')
    /\ _unvested_shares d !! 0%Z = Some 1000
    /\ _unvested_shares d' !! 0%Z = Some (1000 * sqrt (3 / 2) - 1000)
    /\ shares d = 1000
    /\ shares d' = 1000 * sqrt (3 / 2) - 1000.
Proof.
  intros d.
  assert (Hnn : shares_nonneg d)
    by (apply first_delegator_shares_nonneg; cbn; lra).
  destruct (example_buy 0 d eq_refl eq_refl Hnn) as (d' & Hd' & _).
  assert (Hbuy : private_price d > 2) by (cbn; lra).
  pose proof (Rnot_lt_le _ _ (example_pct d eq_refl)) as Hthr.
  exists d'. split; [exact Hd' |].
  split; [apply lookup_singleton_eq |].
  split.
  - apply (proj1 buy_overwrites_timestep 1000 1000 2 (1 / 100) 0%Z d d'
             (1000 * sqrt (3 / 2) - 1000) 500 Hbuy Hthr Hd').
  - apply (proj1 (proj2 buy_overwrites_timestep) (1, 1, 1)
             (kw.mk 1000 500 0 (9 / 10) 2 (1 / 2) 0 (9 / 10) 0) 0%Z 1%Z
             (first_delegator _ 0) d' 3 1000 1000 2 (1 / 100)
             (1000 * sqrt (3 / 2) - 1000) 500).
    + apply init_first; cbn; [reflexivity | lra].
    + lra.
    + exact Hthr.
    + exact Hd'.
Defined.

(** ** Selling *)




(** ** The cost basis *)

(** On a pool whose spot price lies on the curve ([2 * reserve / supply]),
    the sign of [added_reserve] the bookkeeping goes by agrees with the
    branch taken: a BUY of an object that holds no negative reserve spends
    a positive amount whenever it creates shares, *)
Lemma buy_branch_sign (supply reserve : R) (t : Z) (d d' : Delegator) (cs ar : R) :
  supply > 0 -> reserve > 0 ->
  private_price d > 2 * reserve / supply ->
  0 <= reserve_token_holdings d ->
  buy supply reserve t d = (Ok (cs, ar), d') ->
  0 <= ar /\ (cs <> 0 -> ar > 0).
Proof.
  intros Hs Hr Hp Hh Hb.
  apply buy_Ok_inv in Hb as (_ & Har & _ & Hcs & _).
  assert (Hps : private_price d * supply > 2 * reserve).
  { apply (Rmult_lt_compat_r supply) in Hp; [| lra].
    replace (2 * reserve / supply * supply) with (2 * reserve) in Hp
      by (field; lra).
    lra. }
  assert (Hf : 0 < (private_price d ^ 2 * supply ^ 2 - 4 * reserve ^ 2)
                   / (4 * reserve)).
  { apply Rdiv_lt_0_compat; [| lra]. simpl. nra. }
  assert (Hge : 0 <= ar).
  { rewrite Har. apply Rmin_glb; lra. }
  split; [exact Hge |].
  intros Hne. destruct Hge as [Hpos | Hzero]; [exact Hpos |].
  exfalso. apply Hne. rewrite Hcs, <- Hzero.
  replace (1 + 0 / reserve) with 1 by (field; lra).
  rewrite sqrt_1. lra.
Qed.

(** and a SELL of an object whose vested shares lie between its floor and
    the supply gets an [added_reserve] that is not positive. *)
Lemma sell_branch_sign (supply reserve : R) (d d' : Delegator) (cs ar : R) :
  supply > 0 -> reserve > 0 ->
  private_price d < 2 * reserve / supply ->
  minimum_shares d <= vested_shares d <= supply ->
  sell supply reserve d = (Ok (cs, ar), d') ->
  ar <= 0.
Proof.
  intros Hs Hr Hp [Hfloor Hv] Hb.
  apply sell_Ok_inv in Hb as (_ & [(Hpos & _ & Hb) | (_ & _ & -> & _)]);
    [| lra].
  cbv zeta in Hb. destruct Hb as (_ & -> & _).
  pose proof (burn_bounds ((2 * reserve * supply - private_price d * supply ^ 2)
                           / (2 * reserve))
                          (vested_shares d) (minimum_shares d)) as [Hle _].
  assert (Hps : private_price d * supply < 2 * reserve).
  { apply (Rmult_lt_compat_r supply) in Hp; [| lra].
    replace (2 * reserve / supply * supply) with (2 * reserve) in Hp
      by (field; lra).
    lra. }
  assert (Hdes : 0 < (2 * reserve * supply - private_price d * supply ^ 2)
                     / (2 * reserve)).
  { apply Rdiv_lt_0_compat; [| lra]. simpl. nra. }
  set (b := Rmin _ (vested_shares d - minimum_shares d)) in *.
  assert (Hb0 : 0 <= b).
  { unfold b. apply Rmin_glb; [apply Rmin_glb |]; lra. }
  assert (Hx0 : 0 <= b / supply).
  { unfold Rdiv. apply Rmult_le_pos; [exact Hb0 |].
    left. apply Rinv_0_lt_compat. lra. }
  assert (Hx1 : b / supply <= 1).
  { apply (Rmult_le_reg_r supply); [lra |].
    unfold Rdiv. rewrite Rmult_assoc, Rinv_l by lra. lra. }
  set (x := b / supply) in *. simpl.
  assert (Hk : (1 - x) * (1 - x) <= 1) by nra.
  nra.
Qed.

(** C5: a call that returns created shares that are not zero for a
    positive added reserve (a buy) has set [cost_basis] to
    [(prior cost basis * prior shares + unit cost * created shares) /
    new total shares], with the unit cost [added_reserve / created_shares];
    a call that returns a negative added reserve (a sell), or no created
    shares (no trade), or any other pair, leaves [cost_basis] as it was. *)
Theorem cost_basis_changes_only_on_buy
    (supply reserve spot thr : R) (t : Z) (d d' : Delegator) (cs ar : R) :
  buy_or_sell supply reserve spot thr t d = (Ok (cs, ar), d') ->
  (cs <> 0 -> ar > 0 ->
   let unit_cost := ar / cs in
   cost_basis d' = (cost_basis d * shares d + unit_cost * cs) / shares d')
  /\ (cs = 0 \/ ar <= 0 -> cost_basis d' = cost_basis d).
Proof.
  destruct (Rlt_dec (pct_price_diff d spot) thr) as [Hlow | Hact].
  { rewrite buy_or_sell_below by exact Hlow.
    intros H; inversion H; subst. split; [intros Hc; lra | reflexivity]. }
  rewrite buy_or_sell_acts by exact Hact.
  destruct (trade supply reserve spot t d) as [[[cs1 ar1] | e |] d1] eqn:Htr;
    try discriminate.
  apply trade_cost_basis in Htr. cbn [fst snd].
  destruct (bookkeeping _ _ _ _ _ _ _) as [u d2] eqn:Hbk.
  pose proof (bookkeeping_frame _ _ _ _ _ _ _ _ _ Hbk) as (Hu & Hv & _).
  apply bookkeeping_cost_basis in Hbk.
  destruct u as [[] | e |]; try discriminate.
  intros H; inversion H; subst; clear H.
  assert (Hsh : shares d' = shares (set_reserve_token_holdings
                                      (reserve_token_holdings d1 - ar) d1)).
  { unfold shares, unvested_shares. rewrite Hu, Hv. reflexivity. }
  destruct Hbk as [(_ & Hcs & Har & _ & Hcb) | ([Hr | [Hcs | Har]] & Hcb)].
  - split; [intros _ _; cbv zeta; rewrite Hsh; exact Hcb |].
    intros [Hc | Hc]; [contradiction | lra].
  - congruence.
  - split; [intros Hc; contradiction |]. intros _. rewrite Hcb. exact Htr.
  - split; [intros _ Hc; contradiction |]. intros _. rewrite Hcb. exact Htr.
Qed.

(** The buy of the worked example by an object that had no shares: the
    cost basis becomes the unit cost of the purchase. *)
Lemma cost_basis_changes_only_on_buy_witness :
  let d := first_delegator (kw.mk 0 500 0 (9 / 10) 2 (1 / 2) 0 (9 / 10) 0) 3 in
  (exists d',
     buy_or_sell 1000 1000 2 (1 / 100) 0 d
     = (Ok (1000 * sqrt (3 / 2) - 1000, 500), d')
     /\ cost_basis d'
        = (0 * shares d + 500 / (1000 * sqrt (3 / 2) - 1000)
                          * (1000 * sqrt (3 / 2) - 1000)) / shares d')
  /\ (exists d',
        buy_or_sell 1000 1000 2 1 0 d = (Ok (0, 0), d')
        /\ cost_basis d' = cost_basis d).
Proof.
  intros d. split.
  - assert (Hnn : shares_nonneg d)
      by (apply first_delegator_shares_nonneg; cbn; lra).
    destruct (example_buy 0 d eq_refl eq_refl Hnn) as (d' & Hd' & _).
    exists d'. split; [exact Hd' |].
    pose proof (sqrt_gt_1 (3 / 2) ltac:(lra)) as Hroot.
    apply (proj1 (cost_basis_changes_only_on_buy 1000 1000 2 (1 / 100) 0 d d'
                    _ _ Hd')); lra.
  - assert (Hlow : buy_or_sell 1000 1000 2 1 0 d = (Ok (0, 0), d)).
    { apply buy_or_sell_below. unfold pct_price_diff.
      rewrite Rgt_dec_true by lra. cbn. rewrite Rabs_right; lra. }
    exists d. split; [exact Hlow |].
    apply (proj2 (cost_basis_changes_only_on_buy 1000 1000 2 1 0 d d 0 0 Hlow)).
    left. reflexivity.
Defined.

(** ** Errors *)

(** A call can end in a division by zero.  On a pool without reserve the
    BUY block divides by [4 * reserve].  On a pool of supply 1000 and
    reserve 1000 (spot price 2), an object that has the whole supply
    vested and the private price 0 the constructor gave it burns every
    share, is paid the whole reserve, and then the new spot price divides
    by [supply + created_shares = 0]. *)
Lemma buy_or_sell_raises :
  (let d := first_delegator (kw.mk 0 500 0 (9 / 10) 2 (1 / 2) 0 (9 / 10) 0) 3 in
   buy_or_sell 1000 0 2 (1 / 100) 0 d = (Raise ZeroDivisionError, d))
  /\ (let d := set_vested_shares 1000 (first_delegator kw.defaults 0) in
      buy_or_sell 1000 1000 2 (1 / 100) 0 d
      = (Raise ZeroDivisionError,
         set_reserve_token_holdings 1000 (set_vested_shares 0 d))).
Proof.
  split; intros d.
  - rewrite buy_or_sell_acts by (apply example_pct; reflexivity).
    rewrite trade_buy by (cbn; lra).
    unfold buy. run. rewrite Rmult_0_r, pydiv_zero. reflexivity.
  - assert (Hthr : ~ pct_price_diff d 2 < 1 / 100).
    { unfold pct_price_diff. rewrite Rgt_dec_true by lra.
      cbn. rewrite Rabs_left; lra. }
    rewrite buy_or_sell_acts by exact Hthr.
    rewrite trade_sell by (cbn; lra).
    pose proof (sell_run 1000 1000 d) as Hrun. cbv zeta in Hrun.
    assert (Hb : Rmin (Rmin ((2 * 1000 * 1000 - private_price d * 1000 ^ 2)
                             / (2 * 1000)) (vested_shares d))
                      (vested_shares d - minimum_shares d) = 1000).
    { cbn. replace ((2 * 1000 * 1000 - 0 * (1000 * (1000 * 1))) / (2 * 1000))
        with 1000 by lra.
      rewrite (Rmin_left 1000 1000) by lra. apply Rmin_left. lra. }
    rewrite Hb in Hrun. rewrite Hrun by (cbn; lra). clear Hrun Hb.
    cbn [fst snd]. unfold bookkeeping. run.
    replace (1000 + - (1000)) with 0 by lra. rewrite pydiv_zero.
    f_equal. unfold set_reserve_token_holdings, set_vested_shares. cbn.
    f_equal; simpl; lra.
Qed.

(** Without reserve in the pool every call that trades raises before it
    has assigned anything: the BUY block divides by [4 * reserve], the
    SELL block by [2 * reserve]. *)
Lemma trade_without_reserve (supply spot : R) (t : Z) (d : Delegator) :
  private_price d <> spot ->
  trade supply 0 spot t d = (Raise ZeroDivisionError, d).
Proof.
  intros Hne.
  destruct (Rtotal_order (private_price d) spot) as [Hsell | [Hhold | Hbuy]];
    [| contradiction |].
  - rewrite trade_sell by exact Hsell. unfold sell. run.
    rewrite Rmult_0_r, pydiv_zero. reflexivity.
  - rewrite trade_buy by exact Hbuy. unfold buy. run.
    rewrite Rmult_0_r, pydiv_zero. reflexivity.
Qed.

(** A BUY that spends nothing creates nothing. *)
Lemma buy_nothing_spent (supply reserve : R) :
  supply * sqrt (1 + 0 / reserve) - supply = 0.
Proof.
  replace (1 + 0 / reserve) with 1 by (unfold Rdiv; rewrite Rmult_0_l; lra).
  rewrite sqrt_1. lra.
Qed.

(** C7, amended: [buy_or_sell] can raise, because it guards none of its
    divisors; the conditions at the boundary of a trade raise nothing.
    - On a pool without reserve, every call that passes the threshold
      with a private price off the spot price raises, with the object
      unchanged.
    - On a pool of moderate size whose spot price is the price of the
      curve, [2 * reserve / supply], a call by an object of moderate size
      that is solvent and has less than the supply vested returns.
    - Where a call returns, the clips bound the trade.  A BUY spends at
      most the sized amount and at most the reserve held: exactly the
      reserve held when the sized amount exceeds it, nothing negative
      when neither is negative, and a BUY that spends nothing creates
      nothing.  A SELL with vested shares burns at most the desired burn
      and at most the vested shares; it burns nothing negative when the
      vested shares are at or above the floor and the desired burn is not
      negative (vested shares below the floor are left out here).  A
      SELL without vested shares is [(0, 0)] and leaves the object as it
      was. *)
Theorem buy_or_sell_failure_semantics
    (supply reserve spot thr : R) (t : Z) (d : Delegator) :
  (thr <= pct_price_diff d spot -> private_price d <> spot -> reserve = 0 ->
   exists e, buy_or_sell supply reserve spot thr t d = (Raise e, d))
  /\ (moderate_pool supply reserve -> spot = 2 * reserve / supply ->
      moderate_agent d -> solvent d -> vested_shares d < supply ->
      exists cs ar d',
        buy_or_sell supply reserve spot thr t d = (Ok (cs, ar), d'))
  /\ (forall cs ar d',
        thr <= pct_price_diff d spot ->
        buy_or_sell supply reserve spot thr t d = (Ok (cs, ar), d') ->
        (private_price d > spot ->
         let sized :=
           (private_price d ^ 2 * supply ^ 2 - 4 * reserve ^ 2) / (4 * reserve) in
         ar <= sized
         /\ ar <= reserve_token_holdings d
         /\ (reserve_token_holdings d < sized -> ar = reserve_token_holdings d)
         /\ (0 <= sized -> 0 <= reserve_token_holdings d -> 0 <= ar)
         /\ (ar = 0 -> cs = 0))
        /\ (private_price d < spot -> vested_shares d > 0 ->
            let desired :=
              (2 * reserve * supply - private_price d * supply ^ 2)
              / (2 * reserve) in
            - cs <= desired
            /\ - cs <= vested_shares d
            /\ (minimum_shares d <= vested_shares d -> 0 <= desired ->
                0 <= - cs))
        /\ (private_price d < spot -> vested_shares d <= 0 ->
            cs = 0 /\ ar = 0 /\ d' = d)).
Proof.
  split; [| split].
  - intros Hthr Hne ->. exists ZeroDivisionError.
    rewrite buy_or_sell_acts by lra.
    rewrite trade_without_reserve by exact Hne. reflexivity.
  - intros [[Hs _] [Hr _]] -> _ (Hh & Hnn & _) Hv.
    assert (Hpos : 0 < / 10 ^ 9) by (apply Rinv_0_lt_compat, pow_lt; lra).
    apply buy_or_sell_returns; try assumption; try lra.
    unfold Rdiv. apply Rmult_le_pos; [lra |].
    left. apply Rinv_0_lt_compat. lra.
  - intros cs ar d' Hthr Hrun.
    apply buy_or_sell_Ok_inv in Hrun as (d1 & Htr & Hbk); [| lra].
    split; [| split].
    + intros Hbuy. rewrite trade_buy in Htr by exact Hbuy.
      apply buy_Ok_inv in Htr as (_ & Har & _ & Hcs & _).
      set (sized := (private_price d ^ 2 * supply ^ 2 - 4 * reserve ^ 2)
                    / (4 * reserve)) in *.
      cbv zeta. fold sized.
      pose proof (Rmin_l sized (reserve_token_holdings d)) as Hl.
      pose proof (Rmin_r sized (reserve_token_holdings d)) as Hr.
      split; [lra |]. split; [lra |]. split; [| split].
      * intros Hshort. rewrite Har. apply Rmin_right. lra.
      * intros Hsized Hheld. rewrite Har. apply Rmin_glb; assumption.
      * intros Hzero. rewrite Hcs, Hzero. apply buy_nothing_spent.
    + intros Hsell Hv. rewrite trade_sell in Htr by exact Hsell.
      apply sell_Ok_inv in Htr as (_ & [(_ & _ & Hsold) | (Hnv & _)]);
        [| contradiction].
      cbv zeta in Hsold. destruct Hsold as (Hcs & _).
      set (desired := (2 * reserve * supply - private_price d * supply ^ 2)
                      / (2 * reserve)) in *.
      cbv zeta. fold desired.
      pose proof (Rmin_l (Rmin desired (vested_shares d))
                         (vested_shares d - minimum_shares d)) as Hl.
      pose proof (Rmin_l desired (vested_shares d)) as Hl1.
      pose proof (Rmin_r desired (vested_shares d)) as Hr1.
      split; [lra |]. split; [lra |].
      intros Hfloor Hdes. rewrite Hcs, Ropp_involutive.
      apply Rmin_glb; [apply Rmin_glb |]; lra.
    + intros Hsell Hv. rewrite trade_sell in Htr by exact Hsell.
      apply sell_Ok_inv in Htr as (_ & [(Hpos & _) | (_ & -> & -> & ->)]);
        [lra |].
      rewrite set_reserve_token_holdings_same in Hbk.
      apply bookkeeping_nothing_created in Hbk. auto.
Qed.

(** The buy of the worked example returns, and what it returns spends
    the 500 of reserve the object holds (the purchase is sized at 1250);
    the same call on a pool without reserve raises and leaves the object
    as it was. *)
Lemma buy_or_sell_failure_semantics_witness :
  let d := first_delegator (kw.mk 0 500 0 (9 / 10) 2 (1 / 2) 0 (9 / 10) 0) 3 in
  (exists cs ar d', buy_or_sell 1000 1000 2 (1 / 100) 0 d = (Ok (cs, ar), d'))
  /\ (forall cs ar d',
        buy_or_sell 1000 1000 2 (1 / 100) 0 d = (Ok (cs, ar), d') -> ar = 500)
  /\ (exists e, buy_or_sell 1000 0 2 (1 / 100) 0 d = (Raise e, d)).
Proof.
  intros d.
  assert (Hmod : forall x, 0 <= x <= 1000 -> moderate x).
  { intros x Hx. unfold moderate. rewrite Rabs_right by lra. simpl. lra. }
  assert (Hthr : 1 / 100 <= pct_price_diff d 2)
    by (apply Rnot_lt_le, example_pct; reflexivity).
  split; [| split].
  2: { intros cs ar d' Hrun.
       pose proof (proj2 (proj2 (buy_or_sell_failure_semantics
                                   1000 1000 2 (1 / 100) 0 d))
                         cs ar d' Hthr Hrun) as (Hbuy & _).
       destruct Hbuy as (_ & _ & Hshort & _); [cbn; lra |].
       apply Hshort. cbn. lra. }
  - apply (proj1 (proj2 (buy_or_sell_failure_semantics 1000 1000 2 (1 / 100) 0 d))).
    + unfold moderate_pool. simpl. lra.
    + lra.
    + unfold moderate_agent, shares, unvested_shares. cbn.
      rewrite sum_values_singleton.
      repeat split; apply Hmod; lra.
    + split; [cbn; lra |]. split.
      * apply first_delegator_shares_nonneg. cbn. lra.
      * cbn. lra.
    + cbn. lra.
  - apply (proj1 (buy_or_sell_failure_semantics 1000 0 2 (1 / 100) 0 d)).
    + exact Hthr.
    + cbn. lra.
    + reflexivity.
Defined.

(** ** The type and the weights an object is built with *)

(** The first object of a process (id 0) built with the type left unset
    gets type 3, where [id mod 3 + 1] is 1. *)
Lemma first_delegator_gets_type_3 :
  exists d,
    __init__ (1, 1, 1) kw.defaults 0%Z = (Ok d, 1%Z)
    /\ kw.delegator_type kw.defaults = 0%Z
    /\ id d = 0%Z
    /\ delegator_type d = 3%Z
    /\ (id d mod 3 + 1)%Z = 1%Z
    /\ delegator_type d <> (id d mod 3 + 1)%Z.
Proof.
  exists (first_delegator kw.defaults 0).
  split; [apply init_first; cbn; [reflexivity | lra] |].
  repeat split. cbn. discriminate.
Qed.

(** C8, amended: an object constructed with the type given as 0 or left
    unset takes the value of the counter as its id and is assigned the type
    [((id - 1) mod 3) + 1], with the modulus that is never negative: ids
    0, 1, 2, 3, ... get the types 3, 1, 2, 3, ... *)
Theorem init_rotates_type
    (rvs : R * R * R) (a : kw.t) (c c' : Z) (d : Delegator) :
  kw.delegator_type a = 0%Z ->
  __init__ rvs a c = (Ok d, c') ->
  id d = c
  /\ delegator_type d = ((id d - 1) mod 3 + 1)%Z
  /\ (1 <= delegator_type d <= 3)%Z
  /\ c' = (c + 1)%Z.
Proof.
  intros Hty Hinit.
  apply init_Ok_inv in Hinit as (_ & Hc & Hid & _ & _ & _ & _ & Hdt & _).
  rewrite Hty in Hdt. cbn in Hdt. rewrite Hid, Hdt.
  pose proof (Z.mod_pos_bound (c - 1) 3 ltac:(lia)).
  repeat split; try assumption; lia.
Qed.

Lemma init_rotates_type_witness :
  exists d,
    __init__ (1, 1, 1) kw.defaults 0%Z = (Ok d, 1%Z)
    /\ id d = 0%Z
    /\ delegator_type d = ((id d - 1) mod 3 + 1)%Z
    /\ (1 <= delegator_type d <= 3)%Z
    /\ 1%Z = (0 + 1)%Z.
Proof.
  exists (first_delegator kw.defaults 0).
  assert (Hinit : __init__ (1, 1, 1) kw.defaults 0%Z
                  = (Ok (first_delegator kw.defaults 0), 1%Z))
    by (apply init_first; cbn; [reflexivity | lra]).
  split; [exact Hinit |].
  apply (init_rotates_type (1, 1, 1) kw.defaults 0 1 _ eq_refl Hinit).
Defined.

(** C9: every object the constructor returns has a type other than 0 (one
    of 1, 2, 3 when the type was given as 0 or left unset) and carries as
    [component_weights] the vector of three entries that is 1 at the
    position Python's index [delegator_type - 1] denotes and 0 elsewhere;
    for the types 1, 2, 3 that position is [delegator_type - 1].  The
    draws of the mixed branch of [get_component_weights] have no part in
    it: at the stored type the sampler answers these weights, and the
    constructor returns the same object, whatever the draws are. *)
Theorem init_weights_one_hot
    (rvs : R * R * R) (a : kw.t) (c c' : Z) (d : Delegator) :
  __init__ rvs a c = (Ok d, c') ->
  delegator_type d <> 0%Z
  /\ (kw.delegator_type a = 0%Z -> (1 <= delegator_type d <= 3)%Z)
  /\ (exists n,
         py_index 3 (delegator_type d - 1) = Ok n
         /\ ((1 <= delegator_type d <= 3)%Z ->
             n = Z.to_nat (delegator_type d - 1))
         /\ length (component_weights d) = 3%nat
         /\ forall j, (j < 3)%nat ->
              component_weights d !! j = Some (if Nat.eq_dec j n then 1 else 0))
  /\ (forall rvs',
        get_component_weights rvs' (delegator_type d) = Ok (component_weights d)
        /\ __init__ rvs' a c = (Ok d, c')).
Proof.
  intros Hinit.
  pose proof (init_Ok_inv _ _ _ _ _ Hinit) as (_ & _ & _ & _ & _ & _ & _ & Hdt & Hw).
  cbv zeta in Hw. rewrite <- Hdt in Hw.
  split; [rewrite Hdt; apply resolved_type_nonzero |].
  split.
  { intros Hty. rewrite Hdt, Hty. cbn.
    pose proof (Z.mod_pos_bound (c - 1) 3 ltac:(lia)). lia. }
  split.
  - apply one_hot_lookup in Hw as (n & Hn & Hlen & Hw).
    exists n. split; [exact Hn |]. split; [| split; assumption].
    intros Hrange. apply py_index_3_inv in Hn as [_ [[_ ->] | [Hneg _]]];
      [reflexivity | lia].
  - intros rvs'. split.
    + rewrite get_component_weights_pure; [exact Hw |].
      rewrite Hdt. apply resolved_type_nonzero.
    + rewrite (init_rvs_irrelevant rvs' rvs). exact Hinit.
Qed.

Lemma init_weights_one_hot_witness :
  exists d,
    __init__ (1, 1, 1) kw.defaults 0%Z = (Ok d, 1%Z)
    /\ delegator_type d = 3%Z
    /\ component_weights d = [0; 0; 1]
    /\ exists n,
         py_index 3 (delegator_type d - 1) = Ok n
         /\ ((1 <= delegator_type d <= 3)%Z ->
             n = Z.to_nat (delegator_type d - 1))
         /\ length (component_weights d) = 3%nat
         /\ forall j, (j < 3)%nat ->
              component_weights d !! j = Some (if Nat.eq_dec j n then 1 else 0).
Proof.
  exists (first_delegator kw.defaults 0).
  assert (Hinit : __init__ (1, 1, 1) kw.defaults 0%Z
                  = (Ok (first_delegator kw.defaults 0), 1%Z))
    by (apply init_first; cbn; [reflexivity | lra]).
  split; [exact Hinit |]. split; [reflexivity |]. split; [reflexivity |].
  apply (proj1 (proj2 (proj2 (init_weights_one_hot (1, 1, 1) kw.defaults
                                0 1 _ Hinit)))).
Defined.

(** * Further properties of the code *)

(** ** What the blocks assign *)

(** The BUY and SELL blocks assign the unvested and the vested shares and
    nothing else, whatever their outcome. *)
Lemma trade_assigns (supply reserve spot : R) (t : Z) (d d1 : Delegator)
    (r : result (R * R)) :
  trade supply reserve spot t d = (r, d1) ->
  d1 = set_vested_shares (vested_shares d1)
         (set__unvested_shares (_unvested_shares d1) d).
Proof.
  assert (Heta : d = set_vested_shares (vested_shares d)
                       (set__unvested_shares (_unvested_shares d) d))
    by (destruct d; reflexivity).
  unfold trade. run.
  destruct (Rgt_dec (private_price d) spot).
  - destruct r as [[cs ar] | e |]; intros Hb.
    + apply buy_Ok_inv in Hb as (_ & _ & _ & _ & ->). destruct d; reflexivity.
    + apply buy_fail_state in Hb as ->; [exact Heta | discriminate].
    + apply buy_fail_state in Hb as ->; [exact Heta | discriminate].
  - destruct (Rlt_dec (private_price d) spot).
    + destruct r as [[cs ar] | e |]; intros Hb.
      * apply sell_Ok_inv in Hb as (_ & [(_ & _ & Hb) | (_ & _ & _ & ->)]);
          [| exact Heta].
        cbv zeta in Hb. destruct Hb as (_ & _ & ->). destruct d; reflexivity.
      * apply sell_fail_state in Hb as ->; [exact Heta | discriminate].
      * apply sell_fail_state in Hb as ->; [exact Heta | discriminate].
    + intros H; inversion H; subst. exact Heta.
Qed.

(** The bookkeeping assigns the cost basis and the two ledgers of the
    gains from shares and nothing else, whatever its outcome. *)
Lemma bookkeeping_assigns (supply reserve osh ocb cs ar : R)
    (s s' : Delegator) (r : result unit) :
  bookkeeping supply reserve osh ocb cs ar s = (r, s') ->
  s' = set_unrealized_gains_from_shares (unrealized_gains_from_shares s')
         (set_realized_gains_from_shares (realized_gains_from_shares s')
            (set_cost_basis (cost_basis s') s)).
Proof.
  assert (Heta : s = set_unrealized_gains_from_shares (unrealized_gains_from_shares s)
                       (set_realized_gains_from_shares (realized_gains_from_shares s)
                          (set_cost_basis (cost_basis s) s)))
    by (destruct s; reflexivity).
  unfold bookkeeping. run.
  destruct (pydiv _ (supply + cs)); [| intros H; inversion H; subst; exact Heta ..].
  destruct (Req_dec_T cs 0); [intros H; inversion H; subst; exact Heta |].
  destruct (pydiv ar cs); [| intros H; inversion H; subst; exact Heta ..].
  destruct (Rgt_dec ar 0).
  - destruct (pydiv _ (shares s)); intros H; inversion H; subst;
      try exact Heta.
    destruct s; reflexivity.
  - destruct (Rlt_dec ar 0); intros H; inversion H; subst;
      destruct s; reflexivity.
Qed.

(** When the bookkeeping raises it has assigned nothing. *)
Lemma bookkeeping_raise_state (supply reserve osh ocb cs ar : R)
    (s s' : Delegator) (e : exn) :
  bookkeeping supply reserve osh ocb cs ar s = (Raise e, s') ->
  s' = s /\ (supply + cs = 0 \/ (cs <> 0 /\ ar > 0 /\ shares s = 0)).
Proof.
  unfold bookkeeping. run.
  destruct (pydiv _ (supply + cs)) eqn:H1.
  2: { apply pydiv_Raise_inv in H1 as [H0 _]. intros H; inversion H; auto. }
  2: { discriminate. }
  destruct (Req_dec_T cs 0) as [Hcs | Hcs]; [discriminate |].
  rewrite (pydiv_ok _ _ Hcs).
  destruct (Rgt_dec ar 0) as [Har | Har].
  - destruct (pydiv _ (shares s)) eqn:H2; try discriminate.
    apply pydiv_Raise_inv in H2 as [H0 _]. intros H; inversion H; subst.
    split; [reflexivity | right; repeat split; assumption].
  - destruct (Rlt_dec ar 0); discriminate.
Qed.

(** The ledgers after a bookkeeping that went through. *)
Lemma bookkeeping_ledgers (supply reserve osh ocb cs ar : R)
    (s s' : Delegator) :
  bookkeeping supply reserve osh ocb cs ar s = (Ok tt, s') ->
  (cs = 0 -> s' = s)
  /\ (cs <> 0 ->
      unrealized_gains_from_shares s'
      = shares s' * (2 * (reserve + ar) / (supply + cs))
        - shares s' * cost_basis s')
  /\ (cs <> 0 -> ar < 0 ->
      realized_gains_from_shares s'
      = realized_gains_from_shares s - (ar / cs - cost_basis s) * cs)
  /\ (cs = 0 \/ 0 <= ar ->
      realized_gains_from_shares s' = realized_gains_from_shares s).
Proof.
  unfold bookkeeping. run.
  destruct (pydiv _ (supply + cs)) as [nsp | |] eqn:H1; try discriminate.
  apply pydiv_Ok_inv in H1 as [_ ->].
  destruct (Req_dec_T cs 0) as [Hcs | Hcs].
  { intros H; inversion H; subst.
    repeat split; try reflexivity; intros; lra. }
  rewrite (pydiv_ok _ _ Hcs).
  destruct (Rgt_dec ar 0) as [Har | Har].
  - destruct (pydiv _ (shares s)) as [q | |] eqn:H2; try discriminate.
    intros H; inversion H; subst; cbn.
    repeat split; try reflexivity; intros; try contradiction; lra.
  - destruct (Rlt_dec ar 0) as [Hneg | Hneg]; intros H; inversion H; subst; cbn;
      repeat split; try reflexivity; intros; try contradiction; lra.
Qed.

(** ** The outcomes of [buy_or_sell], block by block *)

Lemma buy_or_sell_Raise_inv (supply reserve spot thr : R) (t : Z)
    (d d' : Delegator) (e : exn) :
  buy_or_sell supply reserve spot thr t d = (Raise e, d') ->
  ~ pct_price_diff d spot < thr
  /\ (trade supply reserve spot t d = (Raise e, d')
      \/ exists cs ar d1,
           trade supply reserve spot t d = (Ok (cs, ar), d1)
           /\ bookkeeping supply reserve (shares d) (cost_basis d) cs ar
                (set_reserve_token_holdings (reserve_token_holdings d1 - ar) d1)
              = (Raise e, d')).
Proof.
  destruct (Rlt_dec (pct_price_diff d spot) thr) as [Hlow | Hact].
  { rewrite buy_or_sell_below by exact Hlow. discriminate. }
  rewrite buy_or_sell_acts by exact Hact.
  destruct (trade supply reserve spot t d) as [[[cs1 ar1] | e1 |] d1];
    try discriminate.
  - cbn [fst snd].
    destruct (bookkeeping _ _ _ _ _ _ _) as [[[] | e1 |] d2] eqn:Hbk;
      try discriminate.
    intros H; inversion H; subst. split; [exact Hact |].
    right. exists cs1, ar1, d1. split; [reflexivity | exact Hbk].
  - intros H; inversion H; subst. split; [exact Hact | left; reflexivity].
Qed.

(** A raising trade has assigned nothing. *)
Lemma trade_raise_state (supply reserve spot : R) (t : Z) (d d' : Delegator)
    (e : exn) :
  trade supply reserve spot t d = (Raise e, d') -> d' = d.
Proof.
  unfold trade. run.
  destruct (Rgt_dec (private_price d) spot).
  - intros Hb. apply buy_fail_state in Hb; [exact Hb | discriminate].
  - destruct (Rlt_dec (private_price d) spot).
    + intros Hb. apply sell_fail_state in Hb; [exact Hb | discriminate].
    + discriminate.
Qed.

Lemma pair_eta {A B} (x : A * B) : x = (fst x, snd x).
Proof. destruct x; reflexivity. Qed.

(** ** What a call leaves alone *)

(** X1: whatever its outcome, a call to [buy_or_sell] assigns at most the
    six fields [_unvested_shares], [vested_shares],
    [reserve_token_holdings], [cost_basis], [realized_gains_from_shares]
    and [unrealized_gains_from_shares]; the id, the beliefs, the type, the
    weights, the private price and the dividend ledger are those of the
    object it started from.  A call on the BUY side leaves the vested
    shares, a call on any other side leaves the unvested shares. *)
Theorem buy_or_sell_assigns
    (supply reserve spot thr : R) (t : Z) (d : Delegator) :
  let d' := snd (buy_or_sell supply reserve spot thr t d) in
  d' = set_unrealized_gains_from_shares (unrealized_gains_from_shares d')
         (set_realized_gains_from_shares (realized_gains_from_shares d')
            (set_cost_basis (cost_basis d')
               (set_reserve_token_holdings (reserve_token_holdings d')
                  (set_vested_shares (vested_shares d')
                     (set__unvested_shares (_unvested_shares d') d)))))
  /\ (private_price d > spot -> vested_shares d' = vested_shares d)
  /\ (~ private_price d > spot -> _unvested_shares d' = _unvested_shares d).
Proof.
  cbv zeta.
  assert (Heta : forall x : Delegator,
             x = set_unrealized_gains_from_shares (unrealized_gains_from_shares x)
                   (set_realized_gains_from_shares (realized_gains_from_shares x)
                      (set_cost_basis (cost_basis x)
                         (set_reserve_token_holdings (reserve_token_holdings x)
                            (set_vested_shares (vested_shares x)
                               (set__unvested_shares (_unvested_shares x) x))))))
    by (intros x; destruct x; reflexivity).
  destruct (Rlt_dec (pct_price_diff d spot) thr) as [Hlow | Hact].
  { rewrite buy_or_sell_below by exact Hlow. cbn [snd].
    split; [apply Heta | split; reflexivity]. }
  rewrite buy_or_sell_acts by exact Hact.
  destruct (trade supply reserve spot t d) as [r1 d1] eqn:Htr.
  pose proof (trade_assigns _ _ _ _ _ _ _ Htr) as Hd1.
  assert (Hside : (private_price d > spot -> vested_shares d1 = vested_shares d)
                  /\ (~ private_price d > spot ->
                      _unvested_shares d1 = _unvested_shares d)).
  { clear Hd1. revert Htr. unfold trade. run.
    destruct (Rgt_dec (private_price d) spot) as [Hb | Hb].
    - intros Hbuy. split; [intros _ | contradiction].
      destruct r1 as [[cs ar] | e |].
      + apply buy_Ok_inv in Hbuy as (_ & _ & _ & _ & ->). reflexivity.
      + apply buy_fail_state in Hbuy as ->; [reflexivity | discriminate].
      + apply buy_fail_state in Hbuy as ->; [reflexivity | discriminate].
    - split; [contradiction | intros _].
      destruct (Rlt_dec (private_price d) spot).
      + destruct r1 as [[cs ar] | e |].
        * apply sell_Ok_inv in Htr as (_ & [(_ & _ & Hs) | (_ & _ & _ & ->)]);
            [| reflexivity].
          cbv zeta in Hs. destruct Hs as (_ & _ & ->). reflexivity.
        * apply sell_fail_state in Htr as ->; [reflexivity | discriminate].
        * apply sell_fail_state in Htr as ->; [reflexivity | discriminate].
      + inversion Htr; reflexivity. }
  destruct r1 as [sized | e |]; cbn [snd].
  - destruct (bookkeeping _ _ _ _ _ _ _) as [u d2] eqn:Hbk.
    pose proof (bookkeeping_assigns _ _ _ _ _ _ _ _ _ Hbk) as Hd2.
    pose proof (bookkeeping_frame _ _ _ _ _ _ _ _ _ Hbk) as (Hu & Hv & _).
    assert (Hd2' : snd (match u with
                        | Ok _ => (Ok (fst sized, snd sized), d2)
                        | Raise e => (Raise e, d2)
                        | NonReal => (NonReal, d2)
                        end) = d2) by (destruct u; reflexivity).
    rewrite Hd2'. clear Hd2'. cbn in Hu, Hv.
    split; [| rewrite Hu, Hv; exact Hside].
    clear - Hd1 Hd2.
    set (u1 := _unvested_shares d1) in Hd1. set (v1 := vested_shares d1) in Hd1.
    clearbody u1 v1. subst d1.
    set (a := unrealized_gains_from_shares d2) in Hd2.
    set (b := realized_gains_from_shares d2) in Hd2.
    set (c := cost_basis d2) in Hd2.
    clearbody a b c. subst d2. destruct d; reflexivity.
  - split; [| exact Hside]. clear - Hd1.
    set (u1 := _unvested_shares d1) in Hd1. set (v1 := vested_shares d1) in Hd1.
    clearbody u1 v1. subst d1. destruct d; reflexivity.
  - split; [| exact Hside]. clear - Hd1.
    set (u1 := _unvested_shares d1) in Hd1. set (v1 := vested_shares d1) in Hd1.
    clearbody u1 v1. subst d1. destruct d; reflexivity.
Qed.

Lemma buy_or_sell_assigns_witness :
  let d := first_delegator (kw.mk 0 500 0 (9 / 10) 2 (1 / 2) 0 (9 / 10) 0) 3 in
  let d' := snd (buy_or_sell 1000 1000 2 (1 / 100) 0 d) in
  vested_shares d' = vested_shares d.
Proof.
  intros d d'.
  apply (proj1 (proj2 (buy_or_sell_assigns 1000 1000 2 (1 / 100) 0 d))).
  cbn. lra.
Defined.

(** ** Selling, in full *)

(** The sell of the worked example: 100 vested shares, a floor of 10,
    private price 1 on a pool of supply 1000 and reserve 1000. *)
Lemma example_sell (t : Z) (d : Delegator) :
  private_price d = 1 -> vested_shares d = 100 -> minimum_shares d = 10 ->
  exists d',
    buy_or_sell 1000 1000 2 (1 / 100) t d
    = (Ok (- 90, - (1000 - 1000 * (1 - 90 / 1000) ^ 2)), d').
Proof.
  intros Hp Hv Hm.
  rewrite buy_or_sell_acts
    by (apply Rle_not_lt, example_sell_pct; exact Hp).
  rewrite trade_sell by lra.
  pose proof (sell_run 1000 1000 d) as Hrun. cbv zeta in Hrun.
  rewrite Hp, Hv, Hm in Hrun.
  replace ((2 * 1000 * 1000 - 1 * 1000 ^ 2) / (2 * 1000)) with 500 in Hrun
    by (simpl; lra).
  rewrite (Rmin_right 500 100) in Hrun by lra.
  replace (Rmin 100 (100 - 10)) with 90 in Hrun
    by (rewrite Rmin_right by lra; lra).
  rewrite Hrun by lra. clear Hrun. cbn [fst snd].
  bookkeeping_returns d' Hd'; [lra | intros _ Hpos; simpl in Hpos; lra |].
  exists d'. reflexivity.
Qed.

(** X2: a call that takes the SELL branch with vested shares and returns
    has burned [min (min desired vested_shares) (vested_shares -
    minimum_shares)] shares, where [desired = (2 * reserve * supply -
    private_price * supply^2) / (2 * reserve)]; it returns the burn negated
    as created shares and the payout [reserve - reserve * (1 - burned /
    supply)^2] negated as added reserve, takes the burn off the vested
    shares, credits the payout to the reserve held, and leaves the
    unvested shares alone. *)
Theorem sell_sizing
    (supply reserve spot thr : R) (t : Z) (d d' : Delegator) (cs ar : R) :
  private_price d < spot ->
  thr <= pct_price_diff d spot ->
  vested_shares d > 0 ->
  buy_or_sell supply reserve spot thr t d = (Ok (cs, ar), d') ->
  let desired :=
    (2 * reserve * supply - private_price d * supply ^ 2) / (2 * reserve) in
  let burned :=
    Rmin (Rmin desired (vested_shares d)) (vested_shares d - minimum_shares d) in
  let reserve_paid_out := reserve - reserve * (1 - burned / supply) ^ 2 in
  cs = - burned
  /\ ar = - reserve_paid_out
  /\ vested_shares d' = vested_shares d - burned
  /\ reserve_token_holdings d' = reserve_token_holdings d + reserve_paid_out
  /\ _unvested_shares d' = _unvested_shares d.
Proof.
  intros Hsell Hthr Hv Hrun.
  apply buy_or_sell_Ok_inv in Hrun as (d1 & Htr & Hbk); [| lra].
  rewrite trade_sell in Htr by exact Hsell.
  apply sell_Ok_inv in Htr as (_ & [(_ & _ & Hs) | (Hnv & _)]);
    [| contradiction].
  cbv zeta in Hs. destruct Hs as (Hcs & Har & ->).
  apply bookkeeping_frame in Hbk as (Hu & Hvd & Hh & _).
  cbn in Hu, Hvd, Hh. cbv zeta.
  rewrite Hu, Hvd, Hh.
  repeat split; try assumption; try reflexivity.
  rewrite Har. lra.
Qed.

(** The sell of the worked example burns 90 of the 100 vested shares. *)
Lemma sell_sizing_witness :
  let d := set_vested_shares 100
             (first_delegator (kw.mk 0 0 0 (9 / 10) 2 (1 / 2) 10 (9 / 10) 0) 1) in
  exists cs ar d',
    buy_or_sell 1000 1000 2 (1 / 100) 1 d = (Ok (cs, ar), d')
    /\ cs = - 90
    /\ vested_shares d' = 10.
Proof.
  intros d.
  destruct (example_sell 1 d eq_refl eq_refl eq_refl) as [d' Hd'].
  exists (- 90), (- (1000 - 1000 * (1 - 90 / 1000) ^ 2)), d'.
  split; [exact Hd' |]. split; [reflexivity |].
  pose proof (sell_sizing 1000 1000 2 (1 / 100) 1 d d' _ _
                ltac:(cbn; lra) (example_sell_pct d eq_refl) ltac:(cbn; lra) Hd')
    as (Hcs & _ & Hv & _).
  assert (H100 : vested_shares d = 100) by reflexivity. lra.
Defined.

(** ** The ledgers of the gains from shares *)

Lemma trade_keeps_ledgers (supply reserve spot : R) (t : Z) (d d1 : Delegator)
    (r : result (R * R)) :
  trade supply reserve spot t d = (r, d1) ->
  realized_gains_from_shares d1 = realized_gains_from_shares d
  /\ unrealized_gains_from_shares d1 = unrealized_gains_from_shares d
  /\ reserve_token_holdings d1 = reserve_token_holdings d
  /\ minimum_shares d1 = minimum_shares d
  /\ private_price d1 = private_price d.
Proof.
  intros Htr. apply trade_assigns in Htr. rewrite Htr. repeat split.
Qed.

(** X3: [realized_gains_from_shares] changes only on a sale: a call that
    returns created shares other than zero for a negative added reserve
    has taken [(added_reserve / created_shares - cost_basis) *
    created_shares] off it, with the cost basis the object had before; any
    other returning call leaves it as it was. *)
Theorem realized_gains_change_only_on_sell
    (supply reserve spot thr : R) (t : Z) (d d' : Delegator) (cs ar : R) :
  buy_or_sell supply reserve spot thr t d = (Ok (cs, ar), d') ->
  (cs <> 0 -> ar < 0 ->
   let unit_price := ar / cs in
   realized_gains_from_shares d'
   = realized_gains_from_shares d - (unit_price - cost_basis d) * cs)
  /\ (cs = 0 \/ 0 <= ar ->
      realized_gains_from_shares d' = realized_gains_from_shares d).
Proof.
  destruct (Rlt_dec (pct_price_diff d spot) thr) as [Hlow | Hact].
  { rewrite buy_or_sell_below by exact Hlow.
    intros H; inversion H; subst. split; [intros Hc; lra | reflexivity]. }
  intros Hrun. apply buy_or_sell_Ok_inv in Hrun as (d1 & Htr & Hbk); [| exact Hact].
  pose proof (trade_cost_basis _ _ _ _ _ _ _ Htr) as Hcb.
  apply trade_keeps_ledgers in Htr as (Hre & _).
  apply bookkeeping_ledgers in Hbk as (_ & _ & Hsell & Hkeep).
  cbn in Hsell, Hkeep. rewrite Hre, Hcb in Hsell. rewrite Hre in Hkeep.
  split; assumption.
Qed.

(** The sell of the worked example books [(171.9 / 90 - 0) * 90] as gain. *)
Lemma realized_gains_change_only_on_sell_witness :
  let d := set_vested_shares 100
             (first_delegator (kw.mk 0 0 0 (9 / 10) 2 (1 / 2) 10 (9 / 10) 0) 1) in
  exists cs ar d',
    buy_or_sell 1000 1000 2 (1 / 100) 1 d = (Ok (cs, ar), d')
    /\ realized_gains_from_shares d' = 0 - (ar / cs - 0) * cs.
Proof.
  intros d.
  destruct (example_sell 1 d eq_refl eq_refl eq_refl) as [d' Hd'].
  exists (- 90), (- (1000 - 1000 * (1 - 90 / 1000) ^ 2)), d'.
  split; [exact Hd' |].
  apply (proj1 (realized_gains_change_only_on_sell 1000 1000 2 (1 / 100) 1
                  d d' _ _ Hd')).
  - lra.
  - simpl. lra.
Defined.

(** X4: a call that returns created shares other than zero has marked
    [unrealized_gains_from_shares] to the new price of the curve,
    [2 * (reserve + added_reserve) / (supply + created_shares)]: it is the
    total shares of the object times that price, less the total shares
    times the cost basis, both as they are after the call.  A call that
    returns no created shares leaves the ledger as it was, whatever the
    spot price has become. *)
Theorem unrealized_gains_marked_to_new_price
    (supply reserve spot thr : R) (t : Z) (d d' : Delegator) (cs ar : R) :
  buy_or_sell supply reserve spot thr t d = (Ok (cs, ar), d') ->
  (cs <> 0 ->
   let new_spot_price := 2 * (reserve + ar) / (supply + cs) in
   unrealized_gains_from_shares d'
   = shares d' * new_spot_price - shares d' * cost_basis d')
  /\ (cs = 0 ->
      unrealized_gains_from_shares d' = unrealized_gains_from_shares d).
Proof.
  destruct (Rlt_dec (pct_price_diff d spot) thr) as [Hlow | Hact].
  { rewrite buy_or_sell_below by exact Hlow.
    intros H; inversion H; subst. split; [intros Hc; lra | reflexivity]. }
  intros Hrun. apply buy_or_sell_Ok_inv in Hrun as (d1 & Htr & Hbk); [| exact Hact].
  apply trade_keeps_ledgers in Htr as (_ & Hun & _).
  apply bookkeeping_ledgers in Hbk as (Hsame & Hmark & _).
  split; [exact Hmark |].
  intros Hcs. rewrite (Hsame Hcs). cbn. exact Hun.
Qed.

Lemma unrealized_gains_marked_to_new_price_witness :
  let d := set_vested_shares 100
             (first_delegator (kw.mk 0 0 0 (9 / 10) 2 (1 / 2) 10 (9 / 10) 0) 1) in
  exists cs ar d',
    buy_or_sell 1000 1000 2 (1 / 100) 1 d = (Ok (cs, ar), d')
    /\ unrealized_gains_from_shares d'
       = shares d' * (2 * (1000 + ar) / (1000 + cs)) - shares d' * cost_basis d'.
Proof.
  intros d.
  destruct (example_sell 1 d eq_refl eq_refl eq_refl) as [d' Hd'].
  exists (- 90), (- (1000 - 1000 * (1 - 90 / 1000) ^ 2)), d'.
  split; [exact Hd' |].
  apply (proj1 (unrealized_gains_marked_to_new_price 1000 1000 2 (1 / 100) 1
                  d d' _ _ Hd')).
  lra.
Defined.

(** ** Where a trade that is not clipped lands *)

(** X5: a BUY that is not clipped (the sized amount is within the reserve
    held) on a pool with positive supply and reserve, by an object with a
    positive private price, moves the curve exactly to the private price:
    with the returned pair, [2 * (reserve + added_reserve) /
    (supply + created_shares)] is the private price. *)
Theorem unclipped_buy_reaches_private_price
    (supply reserve spot thr : R) (t : Z) (d d' : Delegator) (cs ar : R) :
  supply > 0 -> reserve > 0 -> private_price d > 0 ->
  private_price d > spot ->
  thr <= pct_price_diff d spot ->
  (private_price d ^ 2 * supply ^ 2 - 4 * reserve ^ 2) / (4 * reserve)
    <= reserve_token_holdings d ->
  buy_or_sell supply reserve spot thr t d = (Ok (cs, ar), d') ->
  2 * (reserve + ar) / (supply + cs) = private_price d.
Proof.
  intros Hs Hr Hp Hbuy Hthr Hfits Hrun.
  apply buy_or_sell_Ok_inv in Hrun as (d1 & Htr & _); [| lra].
  rewrite trade_buy in Htr by exact Hbuy.
  apply buy_Ok_inv in Htr as (_ & Har & _ & Hcs & _).
  rewrite Rmin_left in Har by exact Hfits.
  rewrite Hcs, Har, buy_base_square by lra.
  rewrite sqrt_pow2.
  - assert (0 < supply * (private_price d * supply))
      by (apply Rmult_lt_0_compat; [| apply Rmult_lt_0_compat]; lra).
    field. repeat split; intros Hzero; lra.
  - apply Rlt_le, Rdiv_lt_0_compat; [apply Rmult_lt_0_compat |]; lra.
Qed.

(** With 5000 of reserve held the buy of the worked example is not
    clipped: it spends 1250 and the curve reaches the price 3. *)
Lemma unclipped_buy_reaches_private_price_witness :
  let d := first_delegator (kw.mk 0 5000 0 (9 / 10) 2 (1 / 2) 0 (9 / 10) 0) 3 in
  exists cs ar d',
    buy_or_sell 1000 1000 2 (1 / 100) 0 d = (Ok (cs, ar), d')
    /\ 2 * (1000 + ar) / (1000 + cs) = 3.
Proof.
  intros d.
  destruct (buy_or_sell_returns 1000 1000 2 (1 / 100) 0 d)
    as (cs & ar & d' & Hd');
    [lra | lra | lra | cbn; lra
    | apply first_delegator_shares_nonneg; cbn; lra | cbn; lra |].
  exists cs, ar, d'. split; [exact Hd' |].
  apply (unclipped_buy_reaches_private_price 1000 1000 2 (1 / 100) 0 d d' cs ar);
    try (cbn; lra).
  - apply Rnot_lt_le, example_pct. reflexivity.
  - exact Hd'.
Defined.

(** X6: so does a SELL that is not clipped (the desired burn is within
    the vested shares and leaves the floor), for a private price and a
    pool that are not zero. *)
Theorem unclipped_sell_reaches_private_price
    (supply reserve spot thr : R) (t : Z) (d d' : Delegator) (cs ar : R) :
  supply <> 0 -> reserve <> 0 -> private_price d <> 0 ->
  private_price d < spot ->
  thr <= pct_price_diff d spot ->
  vested_shares d > 0 ->
  (2 * reserve * supply - private_price d * supply ^ 2) / (2 * reserve)
    <= vested_shares d - minimum_shares d ->
  (2 * reserve * supply - private_price d * supply ^ 2) / (2 * reserve)
    <= vested_shares d ->
  buy_or_sell supply reserve spot thr t d = (Ok (cs, ar), d') ->
  2 * (reserve + ar) / (supply + cs) = private_price d.
Proof.
  intros Hs Hr Hp Hsell Hthr Hv Hfloor Hfits Hrun.
  apply buy_or_sell_Ok_inv in Hrun as (d1 & Htr & _); [| lra].
  rewrite trade_sell in Htr by exact Hsell.
  apply sell_Ok_inv in Htr as (_ & [(_ & _ & Hsold) | (Hnv & _)]);
    [| contradiction].
  cbv zeta in Hsold. destruct Hsold as (Hcs & Har & _).
  rewrite (Rmin_left _ (vested_shares d)) in Hcs, Har by exact Hfits.
  rewrite Rmin_left in Hcs, Har by exact Hfloor.
  assert (Hps : private_price d * supply ^ 2 <> 0).
  { apply Rmult_integral_contrapositive_currified;
      [assumption | apply pow_nonzero; assumption]. }
  rewrite Hcs, Har. field.
  repeat split; try assumption. intros Hzero. apply Hps. lra.
Qed.

(** With 600 vested shares and no floor the sell of the worked example is
    not clipped: it burns 500 and the curve reaches the price 1. *)
Lemma unclipped_sell_reaches_private_price_witness :
  let d := set_vested_shares 600
             (first_delegator (kw.mk 0 0 0 (9 / 10) 2 (1 / 2) 0 (9 / 10) 0) 1) in
  exists cs ar d',
    buy_or_sell 1000 1000 2 (1 / 100) 1 d = (Ok (cs, ar), d')
    /\ 2 * (1000 + ar) / (1000 + cs) = 1.
Proof.
  intros d.
  assert (Hnn : shares_nonneg d).
  { split; [cbn; lra |]. cbn. apply map_Forall_singleton. lra. }
  destruct (buy_or_sell_returns 1000 1000 2 (1 / 100) 1 d)
    as (cs & ar & d' & Hd'); [lra | lra | lra | cbn; lra | exact Hnn | cbn; lra |].
  exists cs, ar, d'. split; [exact Hd' |].
  apply (unclipped_sell_reaches_private_price 1000 1000 2 (1 / 100) 1 d d' cs ar);
    try (cbn; lra).
  - apply example_sell_pct. reflexivity.
  - exact Hd'.
Defined.

(** ** Calls that raise *)

(** X7: a call that raises has not rolled anything back and has not
    touched the ledgers.  Either the sizing of the trade failed and the
    object is as it was, or the trade was applied in full (the created
    shares stored or the burn taken off the vested shares, and the reserve
    held moved by the added reserve) before the bookkeeping divided by
    zero: by [supply + created_shares], or by the total shares of the
    object in the update of the cost basis.  In both cases the cost basis
    and the two ledgers of the gains from shares are unchanged. *)
Theorem buy_or_sell_raise_state
    (supply reserve spot thr : R) (t : Z) (d d' : Delegator) (e : exn) :
  buy_or_sell supply reserve spot thr t d = (Raise e, d') ->
  (d' = d
   \/ exists cs ar,
        reserve_token_holdings d' = reserve_token_holdings d - ar
        /\ (private_price d > spot ->
            _unvested_shares d' = <[t := cs]> (_unvested_shares d)
            /\ vested_shares d' = vested_shares d)
        /\ (private_price d < spot ->
            vested_shares d' = vested_shares d + cs
            /\ _unvested_shares d' = _unvested_shares d)
        /\ (supply + cs = 0 \/ (cs <> 0 /\ ar > 0 /\ shares d' = 0)))
  /\ cost_basis d' = cost_basis d
  /\ realized_gains_from_shares d' = realized_gains_from_shares d
  /\ unrealized_gains_from_shares d' = unrealized_gains_from_shares d.
Proof.
  intros Hrun.
  apply buy_or_sell_Raise_inv in Hrun as (Hact & [Htr | (cs & ar & d1 & Htr & Hbk)]).
  { apply trade_raise_state in Htr as ->. repeat split. left. reflexivity. }
  apply bookkeeping_raise_state in Hbk as (-> & Hzero).
  pose proof (trade_cost_basis _ _ _ _ _ _ _ Htr) as Hcb.
  pose proof (trade_keeps_ledgers _ _ _ _ _ _ _ Htr) as (Hre & Hun & Hh & _).
  split; [| cbn; repeat split; assumption].
  right. exists cs, ar. cbn. rewrite Hh.
  split; [reflexivity |]. split; [| split; [| exact Hzero]].
  - intros Hbuy. rewrite trade_buy in Htr by exact Hbuy.
    apply buy_Ok_inv in Htr as (_ & _ & _ & _ & ->). split; reflexivity.
  - intros Hsell. rewrite trade_sell in Htr by exact Hsell.
    apply sell_Ok_inv in Htr as (_ & [(_ & _ & Hs) | (_ & -> & _ & ->)]).
    + cbv zeta in Hs. destruct Hs as (-> & _ & ->). cbn. split; [lra | reflexivity].
    + split; [lra | reflexivity].
Qed.

(** The object that has the whole supply vested, and sells all of it. *)
Lemma example_sell_all (d : Delegator) :
  private_price d = 0 -> vested_shares d = 1000 -> minimum_shares d = 0 ->
  exists d',
    buy_or_sell 1000 1000 2 (1 / 100) 0 d = (Raise ZeroDivisionError, d')
    /\ vested_shares d' = 0
    /\ reserve_token_holdings d' = reserve_token_holdings d + 1000.
Proof.
  intros Hp Hv Hm.
  assert (Hthr : ~ pct_price_diff d 2 < 1 / 100).
  { unfold pct_price_diff. rewrite Rgt_dec_true by lra.
    rewrite Hp, Rabs_left; lra. }
  rewrite buy_or_sell_acts by exact Hthr.
  rewrite trade_sell by lra.
  pose proof (sell_run 1000 1000 d) as Hrun. cbv zeta in Hrun.
  rewrite Hp, Hm, Hv in Hrun.
  replace ((2 * 1000 * 1000 - 0 * 1000 ^ 2) / (2 * 1000)) with 1000 in Hrun
    by (simpl; lra).
  rewrite (Rmin_left 1000 1000) in Hrun by lra.
  rewrite (Rmin_left 1000 (1000 - 0)) in Hrun by lra.
  rewrite Hrun by lra. clear Hrun.
  cbn [fst snd]. unfold bookkeeping. run.
  replace (1000 + - (1000)) with 0 by lra. rewrite pydiv_zero.
  eexists. split; [reflexivity |]. cbn. split; simpl; lra.
Qed.

Lemma buy_or_sell_raise_state_witness :
  let d := set_vested_shares 1000 (first_delegator kw.defaults 0) in
  exists d',
    buy_or_sell 1000 1000 2 (1 / 100) 0 d = (Raise ZeroDivisionError, d')
    /\ vested_shares d' = 0
    /\ cost_basis d' = cost_basis d
    /\ realized_gains_from_shares d' = realized_gains_from_shares d
    /\ unrealized_gains_from_shares d' = unrealized_gains_from_shares d.
Proof.
  intros d.
  destruct (example_sell_all d eq_refl eq_refl eq_refl) as (d' & Hrun & Hv & _).
  exists d'. split; [exact Hrun |]. split; [exact Hv |].
  apply (proj2 (buy_or_sell_raise_state 1000 1000 2 (1 / 100) 0 d _ _ Hrun)).
Defined.

(** ** Shares that are not vested *)




(** ** The direction of a trade *)

Lemma buy_created_nonneg (supply reserve ar : R) :
  supply > 0 -> reserve > 0 -> 0 <= ar ->
  0 <= supply * sqrt (1 + ar / reserve) - supply.
Proof.
  intros Hs Hr Har.
  assert (H0 : 0 <= ar / reserve).
  { unfold Rdiv. apply Rmult_le_pos; [exact Har |].
    left. apply Rinv_0_lt_compat. lra. }
  assert (H1 : 1 <= sqrt (1 + ar / reserve)).
  { rewrite <- sqrt_1 at 1. apply sqrt_le_1; lra. }
  nra.
Qed.

(** Below the price of the curve the desired burn is positive, so the
    burn of an object whose vested shares reach the floor is not
    negative. *)
Lemma sell_burn_nonneg (supply reserve p vested floor : R) :
  supply > 0 -> reserve > 0 -> p < 2 * reserve / supply ->
  vested > 0 -> floor <= vested ->
  0 <= Rmin (Rmin ((2 * reserve * supply - p * supply ^ 2) / (2 * reserve))
                  vested)
            (vested - floor).
Proof.
  intros Hs Hr Hp Hv Hfloor.
  assert (Hps : p * supply < 2 * reserve).
  { apply (Rmult_lt_compat_r supply) in Hp; [| lra].
    replace (2 * reserve / supply * supply) with (2 * reserve) in Hp
      by (field; lra).
    lra. }
  assert (Hdes : 0 < (2 * reserve * supply - p * supply ^ 2) / (2 * reserve)).
  { apply Rdiv_lt_0_compat; [| lra]. simpl. nra. }
  apply Rmin_glb; [apply Rmin_glb |]; lra.
Qed.

(** X9: on a pool whose spot price is the price of the curve
    ([2 * reserve / supply], supply and reserve positive), for an object
    that holds no negative reserve and whose vested shares, when it has
    any, lie between its floor and the supply, a returning call trades in
    the direction of its branch: above the spot price it creates shares
    and spends reserve, below it burns shares and is paid reserve, at the
    spot price it does neither. *)
Theorem trade_follows_branch
    (supply reserve spot thr : R) (t : Z) (d d' : Delegator) (cs ar : R) :
  supply > 0 -> reserve > 0 -> spot = 2 * reserve / supply ->
  0 <= reserve_token_holdings d ->
  (vested_shares d > 0 -> minimum_shares d <= vested_shares d <= supply) ->
  buy_or_sell supply reserve spot thr t d = (Ok (cs, ar), d') ->
  (private_price d > spot -> 0 <= cs /\ 0 <= ar)
  /\ (private_price d < spot -> cs <= 0 /\ ar <= 0)
  /\ (private_price d = spot -> cs = 0 /\ ar = 0).
Proof.
  intros Hs Hr Hspot Hh Hv.
  destruct (Rlt_dec (pct_price_diff d spot) thr) as [Hlow | Hact].
  { rewrite buy_or_sell_below by exact Hlow.
    intros H; inversion H; subst. repeat split; lra. }
  intros Hrun.
  apply buy_or_sell_Ok_inv in Hrun as (d1 & Htr & _); [| exact Hact].
  split; [| split].
  - intros Hbuy. rewrite trade_buy in Htr by exact Hbuy.
    pose proof (buy_branch_sign supply reserve t d d1 cs ar Hs Hr
                  ltac:(lra) Hh Htr) as [Har _].
    apply buy_Ok_inv in Htr as (_ & _ & _ & -> & _).
    split; [apply buy_created_nonneg; assumption | exact Har].
  - intros Hsell. rewrite trade_sell in Htr by exact Hsell.
    apply sell_Ok_inv in Htr as (_ & [(Hpos & _ & Hsold) | (_ & -> & -> & _)]);
      [| lra].
    destruct (Hv Hpos) as [Hfloor Hle].
    cbv zeta in Hsold. destruct Hsold as (-> & -> & _).
    pose proof (sell_burn_nonneg supply reserve (private_price d)
                  (vested_shares d) (minimum_shares d)
                  Hs Hr ltac:(lra) Hpos Hfloor) as Hb0.
    pose proof (burn_bounds ((2 * reserve * supply - private_price d * supply ^ 2)
                             / (2 * reserve))
                            (vested_shares d) (minimum_shares d)) as [Hb1 _].
    set (b := Rmin _ (vested_shares d - minimum_shares d)) in *.
    split; [lra |].
    assert (Hx0 : 0 <= b / supply).
    { unfold Rdiv. apply Rmult_le_pos; [exact Hb0 |].
      left. apply Rinv_0_lt_compat. lra. }
    assert (Hx1 : b / supply <= 1).
    { apply (Rmult_le_reg_r supply); [lra |].
      unfold Rdiv. rewrite Rmult_assoc, Rinv_l by lra. lra. }
    set (x := b / supply) in *. simpl.
    assert (Hk : (1 - x) * (1 - x) <= 1) by nra.
    nra.
  - intros Hhold. rewrite trade_hold in Htr by exact Hhold.
    inversion Htr. split; reflexivity.
Qed.

Lemma trade_follows_branch_witness :
  let d := set_vested_shares 100
             (first_delegator (kw.mk 0 0 0 (9 / 10) 2 (1 / 2) 10 (9 / 10) 0) 1) in
  exists cs ar d',
    buy_or_sell 1000 1000 2 (1 / 100) 1 d = (Ok (cs, ar), d')
    /\ cs <= 0 /\ ar <= 0.
Proof.
  intros d.
  destruct (example_sell 1 d eq_refl eq_refl eq_refl) as [d' Hd'].
  exists (- 90), (- (1000 - 1000 * (1 - 90 / 1000) ^ 2)), d'.
  split; [exact Hd' |].
  apply (proj1 (proj2 (trade_follows_branch 1000 1000 2 (1 / 100) 1 d d' _ _
                         ltac:(lra) ltac:(lra) ltac:(lra) ltac:(cbn; lra)
                         ltac:(cbn; lra) Hd'))).
  cbn. lra.
Defined.



(** ** What a returning call keeps in order *)

Lemma bookkeeping_Ok_divisor (supply reserve osh ocb cs ar : R)
    (s s' : Delegator) :
  bookkeeping supply reserve osh ocb cs ar s = (Ok tt, s') -> supply + cs <> 0.
Proof.
  unfold bookkeeping. run.
  destruct (pydiv _ (supply + cs)) eqn:H1; try discriminate.
  apply pydiv_Ok_inv in H1 as [H0 _]. intros _. exact H0.
Qed.

(** X11: the pair a call returns keeps the pool valid.  On a pool with
    positive supply and reserve, for an object that holds no negative
    reserve and less vested shares than the supply, the reserve with the
    added reserve folded in is not negative (a sell is never paid more
    than the pool holds) and the supply with the created shares folded in
    is positive. *)
Theorem returned_deltas_keep_pool_valid
    (supply reserve spot thr : R) (t : Z) (d d' : Delegator) (cs ar : R) :
  supply > 0 -> reserve > 0 ->
  0 <= reserve_token_holdings d ->
  vested_shares d < supply ->
  buy_or_sell supply reserve spot thr t d = (Ok (cs, ar), d') ->
  0 <= reserve + ar /\ 0 < supply + cs.
Proof.
  intros Hs Hr Hh Hv.
  destruct (Rlt_dec (pct_price_diff d spot) thr) as [Hlow | Hact].
  { rewrite buy_or_sell_below by exact Hlow.
    intros H; inversion H; subst. split; lra. }
  intros Hrun.
  apply buy_or_sell_Ok_inv in Hrun as (d1 & Htr & Hbk); [| exact Hact].
  apply bookkeeping_Ok_divisor in Hbk.
  destruct (Rtotal_order (private_price d) spot) as [Hsell | [Hhold | Hbuy]].
  - rewrite trade_sell in Htr by exact Hsell.
    apply sell_Ok_inv in Htr as (_ & [(Hpos & _ & Hsold) | (_ & -> & -> & _)]);
      [| split; lra].
    cbv zeta in Hsold. destruct Hsold as (-> & -> & _).
    pose proof (burn_bounds ((2 * reserve * supply - private_price d * supply ^ 2)
                             / (2 * reserve))
                            (vested_shares d) (minimum_shares d)) as [Hb1 _].
    set (b := Rmin _ (vested_shares d - minimum_shares d)) in *.
    split; [| lra].
    set (x := b / supply). simpl.
    assert (Hk : 0 <= reserve * ((1 - x) * (1 - x)))
      by (apply Rmult_le_pos; [lra | apply Rle_0_sqr]).
    lra.
  - rewrite trade_hold in Htr by exact Hhold. inversion Htr; subst. split; lra.
  - rewrite trade_buy in Htr by exact Hbuy.
    apply buy_Ok_inv in Htr as (_ & Har & Hbase & Hcs & _).
    split.
    + rewrite Har. unfold Rmin.
      destruct (Rle_dec _ (reserve_token_holdings d)); [| lra].
      replace (reserve + (private_price d ^ 2 * supply ^ 2 - 4 * reserve ^ 2)
                         / (4 * reserve))
        with ((private_price d * supply) ^ 2 / (4 * reserve)) by (field; lra).
      unfold Rdiv. apply Rmult_le_pos; [apply pow2_ge_0 |].
      left. apply Rinv_0_lt_compat. lra.
    + pose proof (sqrt_pos (1 + ar / reserve)) as Hroot.
      rewrite Hcs in Hbk |- *.
      assert (0 <= supply * sqrt (1 + ar / reserve)) by nra.
      destruct (Req_dec_T (supply + (supply * sqrt (1 + ar / reserve) - supply)) 0);
        [contradiction | lra].
Qed.

Lemma returned_deltas_keep_pool_valid_witness :
  let d := set_vested_shares 100
             (first_delegator (kw.mk 0 0 0 (9 / 10) 2 (1 / 2) 10 (9 / 10) 0) 1) in
  exists cs ar d',
    buy_or_sell 1000 1000 2 (1 / 100) 1 d = (Ok (cs, ar), d')
    /\ 0 <= 1000 + ar /\ 0 < 1000 + cs.
Proof.
  intros d.
  destruct (example_sell 1 d eq_refl eq_refl eq_refl) as [d' Hd'].
  exists (- 90), (- (1000 - 1000 * (1 - 90 / 1000) ^ 2)), d'.
  split; [exact Hd' |].
  apply (returned_deltas_keep_pool_valid 1000 1000 2 (1 / 100) 1 d d' _ _
           ltac:(lra) ltac:(lra) ltac:(cbn; lra) ltac:(cbn; lra) Hd').
Defined.

(** ** The floor on floats *)





(** ** Storing shares *)

Lemma sum_values_split (m : gmap Z R) (t : Z) :
  sum_values m = default 0 (m !! t) + sum_values (delete t m).
Proof.
  destruct (m !! t) as [v |] eqn:Ht; cbn.
  - rewrite <- (insert_id m t v Ht) at 1. apply sum_values_insert.
  - rewrite (delete_id m t Ht). lra.
Qed.

(** X13: [set_shares] is last-write-wins storage that the totals follow.
    The entry of the timestep reads back as the amount stored, every other
    entry is untouched, a second store at the timestep erases the first,
    and the total shares move by the amount stored less the amount the
    timestep held before (nothing, when it had no entry). *)
Theorem set_shares_accounting (t : Z) (s : R) (d : Delegator) :
  _unvested_shares (set_shares t s d) !! t = Some s
  /\ (forall t', t' <> t ->
        _unvested_shares (set_shares t s d) !! t' = _unvested_shares d !! t')
  /\ (forall s0, set_shares t s (set_shares t s0 d) = set_shares t s d)
  /\ shares (set_shares t s d)
     = shares d - default 0 (_unvested_shares d !! t) + s.
Proof.
  split; [apply lookup_insert_eq |].
  split; [intros t' Hne; apply lookup_insert_ne; congruence |].
  split.
  - intros s0. unfold set_shares, set__unvested_shares. cbn.
    rewrite insert_insert_eq. reflexivity.
  - unfold shares. rewrite unvested_shares_set_shares.
    unfold unvested_shares. rewrite (sum_values_split (_unvested_shares d) t).
    replace (vested_shares (set_shares t s d)) with (vested_shares d)
      by reflexivity.
    lra.
Qed.

(** X14: a BUY that returns moves the total shares of the object by the
    created shares less whatever its timestep held before: at a timestep
    without an entry the total grows by exactly the created shares, at a
    timestep that holds an earlier purchase that purchase is lost. *)
Theorem buy_moves_total_shares
    (supply reserve spot thr : R) (t : Z) (d d' : Delegator) (cs ar : R) :
  private_price d > spot ->
  thr <= pct_price_diff d spot ->
  buy_or_sell supply reserve spot thr t d = (Ok (cs, ar), d') ->
  shares d' = shares d - default 0 (_unvested_shares d !! t) + cs
  /\ (_unvested_shares d !! t = None -> shares d' = shares d + cs).
Proof.
  intros Hbuy Hthr Hrun.
  apply buy_or_sell_Ok_inv in Hrun as (d1 & Htr & Hbk); [| lra].
  rewrite trade_buy in Htr by exact Hbuy.
  apply buy_Ok_inv in Htr as (_ & _ & _ & _ & ->).
  apply bookkeeping_frame in Hbk as (Hu & Hv & _). cbn in Hu, Hv.
  assert (Hsh : shares d' = shares (set_shares t cs d)).
  { unfold shares, unvested_shares. rewrite Hu, Hv. reflexivity. }
  rewrite Hsh.
  unfold shares. rewrite unvested_shares_set_shares.
  unfold unvested_shares. rewrite (sum_values_split (_unvested_shares d) t).
  replace (vested_shares (set_shares t cs d)) with (vested_shares d)
    by reflexivity.
  split; [lra |]. intros Hnone. rewrite Hnone. cbn. lra.
Qed.

(** The buy of the worked example at a timestep without an entry adds
    the created shares to the total. *)
Lemma buy_moves_total_shares_witness :
  let d := first_delegator (kw.mk 0 500 0 (9 / 10) 2 (1 / 2) 0 (9 / 10) 0) 3 in
  exists d',
    buy_or_sell 1000 1000 2 (1 / 100) 5 d
    = (Ok (1000 * sqrt (3 / 2) - 1000, 500), d')
    /\ shares d' = shares d + (1000 * sqrt (3 / 2) - 1000).
Proof.
  intros d.
  assert (Hnn : shares_nonneg d)
    by (apply first_delegator_shares_nonneg; cbn; lra).
  destruct (example_buy 5 d eq_refl eq_refl Hnn) as (d' & Hd' & _).
  exists d'. split; [exact Hd' |].
  apply (proj2 (buy_moves_total_shares 1000 1000 2 (1 / 100) 5 d d'
                  (1000 * sqrt (3 / 2) - 1000) 500
                  ltac:(cbn; lra)
                  (Rnot_lt_le _ _ (example_pct d eq_refl)) Hd')).
  reflexivity.
Defined.

(** ** Dividends, call after call *)

(** X15: [dividend_value] assigns the dividend ledger and nothing else,
    so calling it again with the same arguments returns the same value
    and credits the same amount once more; an object without shares is
    credited nothing and comes out exactly as it went in. *)
Theorem dividend_value_accrues
    (d : Delegator) (supply owners_share rate : R) :
  supply > 0 ->
  let per_share := expected_revenue d * (1 - owners_share) / supply * rate in
  exists v d1 d2,
    dividend_value supply owners_share rate d = (Ok v, d1)
    /\ dividend_value supply owners_share rate d1 = (Ok v, d2)
    /\ d1 = set_realized_gains_from_dividends
              (realized_gains_from_dividends d + per_share * shares d) d
    /\ d2 = set_realized_gains_from_dividends
              (realized_gains_from_dividends d + 2 * (per_share * shares d)) d
    /\ (shares d = 0 -> d1 = d /\ d2 = d).
Proof.
  intros Hs per_share.
  assert (Hrun : forall x,
             dividend_value supply owners_share rate x
             = (Ok (expected_revenue x * (1 - owners_share) / supply * rate
                    * time_factor x),
                set_realized_gains_from_dividends
                  (realized_gains_from_dividends x
                   + expected_revenue x * (1 - owners_share) / supply * rate
                     * shares x) x)).
  { intros x. unfold dividend_value. run.
    rewrite (Rgt_dec_true _ _ _ _ Hs). rewrite pydiv_ok by lra. reflexivity. }
  eexists _, _, _.
  split; [apply Hrun |].
  split; [rewrite Hrun; reflexivity |].
  split; [reflexivity |].
  split.
  - destruct d. unfold set_realized_gains_from_dividends, per_share, shares,
      unvested_shares. cbn. f_equal. lra.
  - intros Hzero. rewrite Hzero.
    split; destruct d; unfold set_realized_gains_from_dividends, per_share, shares,
      unvested_shares in *; cbn in *; f_equal; rewrite ?Hzero; lra.
Qed.

Lemma dividend_value_accrues_witness :
  let d := first_delegator (kw.mk 10 0 50 (9 / 10) 2 (1 / 2) 0 (9 / 10) 0) 0 in
  exists v d1 d2,
    dividend_value 100 (2 / 10) 1 d = (Ok v, d1)
    /\ dividend_value 100 (2 / 10) 1 d1 = (Ok v, d2)
    /\ realized_gains_from_dividends d2 = 8.
Proof.
  intros d.
  destruct (dividend_value_accrues d 100 (2 / 10) 1 ltac:(lra))
    as (v & d1 & d2 & H1 & H2 & _ & Hd2 & _).
  exists v, d1, d2. split; [exact H1 |]. split; [exact H2 |].
  assert (Hsh : shares d = 10).
  { unfold shares, unvested_shares.
    change (_unvested_shares d) with ({[ 0%Z := 10 ]} : gmap Z R).
    rewrite sum_values_singleton. cbn. lra. }
  rewrite Hd2, Hsh. cbn. lra.
Defined.

(** ** Construction, in full *)


(** The weights of a type other than 0, by the position Python's index
    denotes. *)
Lemma alter_item_one_hot (ty : Z) :
  ((-2 <= ty <= 3)%Z ->
   exists w, alter_item (fun _ => 1) (ty - 1)%Z [0; 0; 0] = Ok w)
  /\ ((ty < -2 \/ 3 < ty)%Z ->
      alter_item (fun _ : R => 1) (ty - 1)%Z [0; 0; 0] = Raise IndexError).
Proof.
  unfold alter_item, py_index. cbn [length].
  split; intros Hty.
  - destruct ((0 <=? ty - 1)%Z && (ty - 1 <? Z.of_nat 3)%Z) eqn:H1; [eauto |].
    destruct ((- Z.of_nat 3 <=? ty - 1)%Z && (ty - 1 <? 0)%Z) eqn:H2; [eauto |].
    apply andb_false_iff in H1, H2.
    rewrite Z.leb_gt, Z.ltb_ge in H1, H2. lia.
  - destruct ((0 <=? ty - 1)%Z && (ty - 1 <? Z.of_nat 3)%Z) eqn:H1.
    { apply andb_true_iff in H1 as [H0%Z.leb_le H3%Z.ltb_lt]. lia. }
    destruct ((- Z.of_nat 3 <=? ty - 1)%Z && (ty - 1 <? 0)%Z) eqn:H2.
    { apply andb_true_iff in H2 as [H0%Z.leb_le H3%Z.ltb_lt]. lia. }
    reflexivity.
Qed.

(** Where a construction goes through. *)
Lemma init_returns (rvs : R * R * R) (a : kw.t) (c : Z) :
  kw.discount_rate a <> 1 ->
  (-2 <= kw.delegator_type a <= 3)%Z ->
  exists d,
    __init__ rvs a c = (Ok d, (c + 1)%Z)
    /\ id d = c
    /\ time_factor d * (1 - kw.discount_rate a) = 1
    /\ shares d = kw.shares a
    /\ unvested_shares d = kw.shares a
    /\ vested_shares d = 0
    /\ private_price d = 0
    /\ cost_basis d = 0
    /\ realized_gains_from_shares d = 0
    /\ unrealized_gains_from_shares d = 0
    /\ realized_gains_from_dividends d = 0.
Proof.
  intros Hdr Hty.
  assert (Hne : 1 - kw.discount_rate a <> 0) by (intros Hz; apply Hdr; lra).
  set (ty := if Z.eq_dec (kw.delegator_type a) 0%Z
             then ((c - 1) mod 3 + 1)%Z else kw.delegator_type a).
  assert (Hrange : (-2 <= ty <= 3)%Z).
  { unfold ty. destruct (Z.eq_dec (kw.delegator_type a) 0%Z); [| exact Hty].
    pose proof (Z.mod_pos_bound (c - 1) 3 ltac:(lia)). lia. }
  destruct (proj1 (alter_item_one_hot ty) Hrange) as [w Hw].
  assert (Hrun : __init__ rvs a c
                 = (Ok {| id := c;
                          _unvested_shares := {[ 0%Z := kw.shares a ]};
                          vested_shares := 0;
                          revenue_token_holdings := 0;
                          reserve_token_holdings := kw.reserve_token_holdings a;
                          expected_revenue := kw.expected_revenue a;
                          discount_rate := kw.discount_rate a;
                          time_factor := 1 / (1 - kw.discount_rate a);
                          delegator_activity_rate := kw.delegator_activity_rate a;
                          minimum_shares := kw.minimum_shares a;
                          avg_delta_price := 0;
                          regression_to_mean_private_price := kw.spot_price a;
                          value_private_price := kw.spot_price a;
                          trendline_private_price := kw.spot_price a;
                          delegator_type := ty;
                          component_weights := w;
                          private_price := 0;
                          smoothing_factor := kw.smoothing_factor a;
                          cost_basis := 0;
                          unrealized_gains_from_shares := 0;
                          realized_gains_from_shares := 0;
                          realized_gains_from_dividends := 0 |},
                    (c + 1)%Z)).
  { unfold __init__. run. rewrite (pydiv_ok _ _ Hne).
    rewrite get_component_weights_pure by apply resolved_type_nonzero.
    fold ty. rewrite Hw. reflexivity. }
  eexists. split; [exact Hrun |].
  unfold shares, unvested_shares. cbn.
  rewrite sum_values_singleton.
  repeat split; try reflexivity; try lra. field. exact Hne.
Qed.

(** X16: how a construction ends.  A discount rate of 1 raises the
    division by zero of the time factor; otherwise a type outside -2..3
    raises the index error of the weights; in both cases the counter of
    the class keeps its value, so no id is used up.  Every other
    construction returns an object whose id is the counter, increments
    the counter by one, and the object starts with the time factor
    [1 / (1 - discount_rate)], its initial shares all unvested, nothing
    vested, a private price of 0 and empty ledgers. *)
Theorem init_outcomes (rvs : R * R * R) (a : kw.t) (c : Z) :
  (kw.discount_rate a = 1 ->
   __init__ rvs a c = (Raise ZeroDivisionError, c))
  /\ (kw.discount_rate a <> 1 ->
      (kw.delegator_type a < -2 \/ 3 < kw.delegator_type a)%Z ->
      __init__ rvs a c = (Raise IndexError, c))
  /\ (kw.discount_rate a <> 1 ->
      (-2 <= kw.delegator_type a <= 3)%Z ->
      exists d,
        __init__ rvs a c = (Ok d, (c + 1)%Z)
        /\ id d = c
        /\ time_factor d * (1 - kw.discount_rate a) = 1
        /\ shares d = kw.shares a
        /\ unvested_shares d = kw.shares a
        /\ vested_shares d = 0
        /\ private_price d = 0
        /\ cost_basis d = 0
        /\ realized_gains_from_shares d = 0
        /\ unrealized_gains_from_shares d = 0
        /\ realized_gains_from_dividends d = 0).
Proof.
  split; [| split].
  - intros Hdr. unfold __init__. run.
    replace (1 - kw.discount_rate a) with 0 by lra.
    rewrite pydiv_zero. reflexivity.
  - intros Hdr Hty. unfold __init__. run.
    rewrite pydiv_ok by (intros Hz; apply Hdr; lra).
    rewrite get_component_weights_pure by apply resolved_type_nonzero.
    destruct (Z.eq_dec (kw.delegator_type a) 0%Z) as [Hz | Hz]; [lia |].
    rewrite (proj2 (alter_item_one_hot (kw.delegator_type a)) Hty).
    reflexivity.
  - apply init_returns.
Qed.

Lemma init_outcomes_witness :
  __init__ (1, 1, 1) (kw.mk 0 0 0 1 2 (1 / 2) 0 (9 / 10) 0) 7%Z
  = (Raise ZeroDivisionError, 7%Z)
  /\ __init__ (1, 1, 1) (kw.mk 0 0 0 (9 / 10) 2 (1 / 2) 0 (9 / 10) 4) 7%Z
     = (Raise IndexError, 7%Z)
  /\ exists d, __init__ (1, 1, 1) kw.defaults 7%Z = (Ok d, 8%Z) /\ id d = 7%Z.
Proof.
  split; [| split].
  - apply (proj1 (init_outcomes (1, 1, 1)
                    (kw.mk 0 0 0 1 2 (1 / 2) 0 (9 / 10) 0) 7)).
    reflexivity.
  - apply (proj1 (proj2 (init_outcomes (1, 1, 1)
                           (kw.mk 0 0 0 (9 / 10) 2 (1 / 2) 0 (9 / 10) 4) 7))).
    + cbn. lra.
    + cbn. lia.
  - destruct (proj2 (proj2 (init_outcomes (1, 1, 1) kw.defaults 7)))
      as (d & Hd & Hid & _).
    + cbn. lra.
    + cbn. lia.
    + exists d. split; assumption.
Defined.

(** X17: the types rotate.  Three constructions in a row with the type
    left unset get consecutive ids and three different types; each type
    follows the one before it in the cycle 1, 2, 3, 1. *)
Theorem init_types_rotate
    (rvs1 rvs2 rvs3 : R * R * R) (a1 a2 a3 : kw.t) (c c1 c2 c3 : Z)
    (d1 d2 d3 : Delegator) :
  kw.delegator_type a1 = 0%Z ->
  kw.delegator_type a2 = 0%Z ->
  kw.delegator_type a3 = 0%Z ->
  __init__ rvs1 a1 c = (Ok d1, c1) ->
  __init__ rvs2 a2 c1 = (Ok d2, c2) ->
  __init__ rvs3 a3 c2 = (Ok d3, c3) ->
  id d2 = (id d1 + 1)%Z /\ id d3 = (id d1 + 2)%Z
  /\ delegator_type d2 = (delegator_type d1 mod 3 + 1)%Z
  /\ delegator_type d3 = (delegator_type d2 mod 3 + 1)%Z
  /\ delegator_type d1 <> delegator_type d2
  /\ delegator_type d2 <> delegator_type d3
  /\ delegator_type d1 <> delegator_type d3.
Proof.
  intros Ht1 Ht2 Ht3 H1 H2 H3.
  apply init_Ok_inv in H1 as (_ & -> & Hi1 & _ & _ & _ & _ & Hty1 & _).
  apply init_Ok_inv in H2 as (_ & -> & Hi2 & _ & _ & _ & _ & Hty2 & _).
  apply init_Ok_inv in H3 as (_ & _ & Hi3 & _ & _ & _ & _ & Hty3 & _).
  rewrite Ht1 in Hty1. rewrite Ht2 in Hty2. rewrite Ht3 in Hty3.
  cbn in Hty1, Hty2, Hty3.
  rewrite Hi1, Hi2, Hi3, Hty1, Hty2, Hty3.
  repeat split; Z.div_mod_to_equations; lia.
Qed.

Lemma init_types_rotate_witness :
  exists d1 d2 d3,
    __init__ (1, 1, 1) kw.defaults 0%Z = (Ok d1, 1%Z)
    /\ __init__ (1, 1, 1) kw.defaults 1%Z = (Ok d2, 2%Z)
    /\ __init__ (1, 1, 1) kw.defaults 2%Z = (Ok d3, 3%Z)
    /\ delegator_type d1 <> delegator_type d2
    /\ delegator_type d2 <> delegator_type d3
    /\ delegator_type d1 <> delegator_type d3.
Proof.
  assert (Hdr : kw.discount_rate kw.defaults <> 1) by (cbn; lra).
  assert (Hty : (-2 <= kw.delegator_type kw.defaults <= 3)%Z) by (cbn; lia).
  destruct (init_returns (1, 1, 1) kw.defaults 0 Hdr Hty) as (d1 & H1 & _).
  destruct (init_returns (1, 1, 1) kw.defaults 1 Hdr Hty) as (d2 & H2 & _).
  destruct (init_returns (1, 1, 1) kw.defaults 2 Hdr Hty) as (d3 & H3 & _).
  exists d1, d2, d3. split; [exact H1 |]. split; [exact H2 |]. split; [exact H3 |].
  apply (init_types_rotate (1, 1, 1) (1, 1, 1) (1, 1, 1)
           kw.defaults kw.defaults kw.defaults 0 1 2 3 d1 d2 d3
           eq_refl eq_refl eq_refl H1 H2 H3).
Defined.



(** ** The weights, in full *)

(** X19: the weights of a type other than 0.  The types -2..3 get a
    vector of three entries, each 0 or 1, that sum to 1; the negative
    types are read as Python indexes them, so type -1 gets the weights of
    type 2 and type -2 those of type 1; every other type raises the index
    error. *)
Theorem pure_weights_by_type (rvs : R * R * R) (ty : Z) :
  ty <> 0%Z ->
  ((-2 <= ty <= 3)%Z ->
   exists w, get_component_weights rvs ty = Ok w
             /\ length w = 3%nat
             /\ Forall (fun x => x = 0 \/ x = 1) w
             /\ py_sum w = 1)
  /\ ((-2 <= ty < 0)%Z ->
      get_component_weights rvs ty = get_component_weights rvs (ty + 3))
  /\ ((ty < -2 \/ 3 < ty)%Z ->
      get_component_weights rvs ty = Raise IndexError).
Proof.
  intros Hty. split; [| split].
  - intros Hrange.
    assert (Hcases : ty = (-2)%Z \/ ty = (-1)%Z \/ ty = 1%Z \/ ty = 2%Z \/ ty = 3%Z)
      by lia.
    assert (Hw : forall w : list R,
               w = [1; 0; 0] \/ w = [0; 1; 0] \/ w = [0; 0; 1] ->
               length w = 3%nat
               /\ Forall (fun x => x = 0 \/ x = 1) w
               /\ py_sum w = 1).
    { intros w [-> | [-> | ->]];
        (split; [reflexivity |]; split;
         [repeat (constructor; [first [left; reflexivity | right; reflexivity] |]);
          constructor
         | unfold py_sum; cbn; lra]). }
    destruct Hcases as [-> | [-> | [-> | [-> | ->]]]].
    + exists [1; 0; 0]. split; [reflexivity | apply Hw; auto].
    + exists [0; 1; 0]. split; [reflexivity | apply Hw; auto].
    + exists [1; 0; 0]. split; [reflexivity | apply Hw; auto].
    + exists [0; 1; 0]. split; [reflexivity | apply Hw; auto].
    + exists [0; 0; 1]. split; [reflexivity | apply Hw; auto].
  - intros Hrange.
    assert (Hcases : ty = (-2)%Z \/ ty = (-1)%Z) by lia.
    destruct Hcases as [-> | ->]; reflexivity.
  - intros Hrange. rewrite get_component_weights_pure by exact Hty.
    apply (proj2 (alter_item_one_hot ty)). exact Hrange.
Qed.

Lemma pure_weights_by_type_witness :
  (exists w, get_component_weights (1, 1, 1) 2 = Ok w /\ py_sum w = 1)
  /\ get_component_weights (1, 1, 1) (-1) = get_component_weights (1, 1, 1) 2
  /\ get_component_weights (1, 1, 1) 4 = Raise IndexError.
Proof.
  split; [| split].
  - destruct (proj1 (pure_weights_by_type (1, 1, 1) 2 ltac:(lia)) ltac:(lia))
      as (w & Hw & _ & _ & Hsum).
    exists w. split; assumption.
  - apply (proj1 (proj2 (pure_weights_by_type (1, 1, 1) (-1) ltac:(lia)))). lia.
  - apply (proj2 (proj2 (pure_weights_by_type (1, 1, 1) 4 ltac:(lia)))). lia.
Defined.

(** The weights of the mixed type, entry by entry. *)
Lemma mixed_weights_run (r0 r1 r2 : R) :
  get_component_weights (r0, r1, r2) 0
  = Ok [r0 / (r0 + (r1 * 10 + (r2 + 0)));
        r1 * 10 / (r0 + (r1 * 10 + (r2 + 0)));
        r2 / (r0 + (r1 * 10 + (r2 + 0)))].
Proof. reflexivity. Qed.

(** X20: the weights of the mixed type.  For three positive draws the
    sampler returns the first and the third draw and ten times the second
    (the entry the index -2 denotes, whatever the type), each divided by
    their total: three weights strictly between 0 and 1 that sum to 1. *)
Theorem mixed_weights_normalized (r0 r1 r2 : R) :
  0 < r0 -> 0 < r1 -> 0 < r2 ->
  let total := r0 + 10 * r1 + r2 in
  get_component_weights (r0, r1, r2) 0
  = Ok [r0 / total; 10 * r1 / total; r2 / total]
  /\ py_sum [r0 / total; 10 * r1 / total; r2 / total] = 1
  /\ Forall (fun w => 0 < w < 1) [r0 / total; 10 * r1 / total; r2 / total].
Proof.
  intros H0 H1 H2 total.
  assert (Htot : 0 < total) by (unfold total; lra).
  assert (Hbound : forall x, 0 < x < total -> 0 < x / total < 1).
  { intros x [Hx0 Hx1]. split; [apply Rdiv_lt_0_compat; lra |].
    apply (Rmult_lt_reg_r total); [lra |].
    unfold Rdiv. rewrite Rmult_assoc, Rinv_l by lra. lra. }
  split; [| split].
  - rewrite mixed_weights_run.
    replace (r0 + (r1 * 10 + (r2 + 0))) with total by (unfold total; lra).
    replace (r1 * 10) with (10 * r1) by lra. reflexivity.
  - unfold py_sum. cbn. unfold total in *. field. lra.
  - repeat constructor; apply Hbound; unfold total; lra.
Qed.

Lemma mixed_weights_normalized_witness :
  get_component_weights (1, 2, 3) 0 = Ok [1 / (1 + 10 * 2 + 3);
                                          10 * 2 / (1 + 10 * 2 + 3);
                                          3 / (1 + 10 * 2 + 3)].
Proof.
  apply (proj1 (mixed_weights_normalized 1 2 3 ltac:(lra) ltac:(lra) ltac:(lra))).
Defined.

(** X21: the test of the module passes: for three positive draws
    [test_weights_normalized] returns without tripping its assertion. *)
Theorem test_weights_normalized_passes (r0 r1 r2 : R) :
  0 < r0 -> 0 < r1 -> 0 < r2 ->
  test_weights_normalized (r0, r1, r2) = Ok tt.
Proof.
  intros H0 H1 H2. unfold test_weights_normalized.
  rewrite mixed_weights_run.
  set (total := r0 + (r1 * 10 + (r2 + 0))).
  assert (Htot : total <> 0) by (unfold total; lra).
  assert (Hsum : py_sum [r0 / total; r1 * 10 / total; r2 / total] = 1).
  { unfold py_sum. cbn. unfold total. field. lra. }
  cbv zeta. rewrite Hsum. rewrite Rlt_dec_true by lra. reflexivity.
Qed.

Lemma test_weights_normalized_passes_witness :
  test_weights_normalized (1, 2, 3) = Ok tt.
Proof.
  apply (test_weights_normalized_passes 1 2 3); lra.
Defined.

(** ** The curve *)

(** X22: every returning call moves along the curve
    [reserve = k * supply^2].  With the pair it returns, clipped or not,
    [(reserve + added_reserve) * supply^2 = reserve * (supply +
    created_shares)^2]: the pool that folds the pair in keeps the ratio of
    its reserve to the square of its supply. *)
Theorem trade_stays_on_curve
    (supply reserve spot thr : R) (t : Z) (d d' : Delegator) (cs ar : R) :
  buy_or_sell supply reserve spot thr t d = (Ok (cs, ar), d') ->
  (reserve + ar) * supply ^ 2 = reserve * (supply + cs) ^ 2.
Proof.
  destruct (Rlt_dec (pct_price_diff d spot) thr) as [Hlow | Hact].
  { rewrite buy_or_sell_below by exact Hlow.
    intros H; inversion H; subst. ring. }
  intros Hrun.
  apply buy_or_sell_Ok_inv in Hrun as (d1 & Htr & _); [| exact Hact].
  destruct (Rtotal_order (private_price d) spot) as [Hsell | [Hhold | Hbuy]].
  - rewrite trade_sell in Htr by exact Hsell.
    apply sell_Ok_inv in Htr as (_ & [(_ & Hs & Hsold) | (_ & -> & -> & _)]);
      [| ring].
    cbv zeta in Hsold. destruct Hsold as (-> & -> & _).
    set (b := Rmin _ (vested_shares d - minimum_shares d)). clearbody b.
    field. exact Hs.
  - rewrite trade_hold in Htr by exact Hhold. inversion Htr; subst. ring.
  - rewrite trade_buy in Htr by exact Hbuy.
    apply buy_Ok_inv in Htr as (Hr & _ & Hbase & -> & _).
    replace ((supply + (supply * sqrt (1 + ar / reserve) - supply)) ^ 2)
      with (supply ^ 2 * (sqrt (1 + ar / reserve) * sqrt (1 + ar / reserve)))
      by ring.
    rewrite sqrt_sqrt by exact Hbase. field. exact Hr.
Qed.

Lemma trade_stays_on_curve_witness :
  let d := first_delegator (kw.mk 0 500 0 (9 / 10) 2 (1 / 2) 0 (9 / 10) 0) 3 in
  exists d',
    buy_or_sell 1000 1000 2 (1 / 100) 0 d
    = (Ok (1000 * sqrt (3 / 2) - 1000, 500), d')
    /\ (1000 + 500) * 1000 ^ 2
       = 1000 * (1000 + (1000 * sqrt (3 / 2) - 1000)) ^ 2.
Proof.
  intros d.
  assert (Hnn : shares_nonneg d)
    by (apply first_delegator_shares_nonneg; cbn; lra).
  destruct (example_buy 0 d eq_refl eq_refl Hnn) as (d' & Hd' & _).
  exists d'. split; [exact Hd' |].
  apply (trade_stays_on_curve 1000 1000 2 (1 / 100) 0 d d' _ _ Hd').
Defined.

(** ** The cost basis of a purchase *)

(** The cost basis a returning call with created shares and a positive
    added reserve has assigned. *)
Lemma purchase_cost_basis
    (supply reserve spot thr : R) (t : Z) (d d' : Delegator) (cs ar : R) :
  buy_or_sell supply reserve spot thr t d = (Ok (cs, ar), d') ->
  cs <> 0 -> ar > 0 ->
  shares d' <> 0
  /\ cost_basis d' = (cost_basis d * shares d + ar / cs * cs) / shares d'.
Proof.
  destruct (Rlt_dec (pct_price_diff d spot) thr) as [Hlow | Hact].
  { rewrite buy_or_sell_below by exact Hlow.
    intros H; inversion H; subst. intros Hc; lra. }
  intros Hrun Hcs Har.
  apply buy_or_sell_Ok_inv in Hrun as (d1 & Htr & Hbk); [| exact Hact].
  pose proof (bookkeeping_frame _ _ _ _ _ _ _ _ _ Hbk) as (Hu & Hv & _).
  assert (Hsh : shares d' = shares (set_reserve_token_holdings
                                      (reserve_token_holdings d1 - ar) d1)).
  { unfold shares, unvested_shares. rewrite Hu, Hv. reflexivity. }
  apply bookkeeping_cost_basis in Hbk
    as [(_ & _ & _ & Hne & Hcb) | ([Hr | [Hc | Hc]] & _)];
    try contradiction; try congruence.
  rewrite Hsh. split; assumption.
Qed.

(** X23: the first purchase sets the cost basis to the price paid.  When
    an object without shares buys at a timestep without an entry, the
    cost basis becomes the added reserve per created share, and the
    unrealized gains are the created shares at the new price of the curve,
    less the reserve spent. *)
Theorem first_purchase_cost_basis
    (supply reserve spot thr : R) (t : Z) (d d' : Delegator) (cs ar : R) :
  shares d = 0 ->
  _unvested_shares d !! t = None ->
  private_price d > spot ->
  thr <= pct_price_diff d spot ->
  cs <> 0 -> ar > 0 ->
  buy_or_sell supply reserve spot thr t d = (Ok (cs, ar), d') ->
  shares d' = cs
  /\ cost_basis d' = ar / cs
  /\ unrealized_gains_from_shares d'
     = cs * (2 * (reserve + ar) / (supply + cs)) - ar.
Proof.
  intros Hzero Hfresh Hbuy Hthr Hcs Har Hrun.
  pose proof (purchase_cost_basis _ _ _ _ _ _ _ _ _ Hrun Hcs Har) as [_ Hcb].
  assert (Hsh : shares d' = cs).
  { apply buy_or_sell_Ok_inv in Hrun as (d1 & Htr & Hbk); [| lra].
    rewrite trade_buy in Htr by exact Hbuy.
    apply buy_Ok_inv in Htr as (_ & _ & _ & _ & ->).
    apply bookkeeping_frame in Hbk as (Hu & Hv & _). cbn in Hu, Hv.
    unfold shares, unvested_shares in *. rewrite Hu, Hv.
    rewrite sum_values_insert_fresh by exact Hfresh. lra. }
  assert (Hcost : cost_basis d' = ar / cs).
  { rewrite Hcb, Hsh, Hzero. field. exact Hcs. }
  split; [exact Hsh |]. split; [exact Hcost |].
  destruct (Rlt_dec (pct_price_diff d spot) thr) as [Hlow | Hact]; [lra |].
  apply buy_or_sell_Ok_inv in Hrun as (d1 & _ & Hbk); [| exact Hact].
  apply bookkeeping_ledgers in Hbk as (_ & Hmark & _).
  rewrite (Hmark Hcs), Hsh, Hcost.
  replace (cs * (ar / cs)) with ar by (field; exact Hcs). reflexivity.
Qed.

(** The buy of the worked example is the first purchase of its object:
    500 of reserve for [1000 * sqrt 1.5 - 1000] shares. *)
Lemma first_purchase_cost_basis_witness :
  let d := first_delegator (kw.mk 0 500 0 (9 / 10) 2 (1 / 2) 0 (9 / 10) 0) 3 in
  exists d',
    buy_or_sell 1000 1000 2 (1 / 100) 5 d
    = (Ok (1000 * sqrt (3 / 2) - 1000, 500), d')
    /\ cost_basis d' = 500 / (1000 * sqrt (3 / 2) - 1000).
Proof.
  intros d.
  assert (Hnn : shares_nonneg d)
    by (apply first_delegator_shares_nonneg; cbn; lra).
  destruct (example_buy 5 d eq_refl eq_refl Hnn) as (d' & Hd' & _).
  exists d'. split; [exact Hd' |].
  pose proof (sqrt_gt_1 (3 / 2) ltac:(lra)) as Hroot.
  apply (first_purchase_cost_basis 1000 1000 2 (1 / 100) 5 d d'
           (1000 * sqrt (3 / 2) - 1000) 500).
  - unfold shares, unvested_shares.
    change (_unvested_shares d) with ({[ 0%Z := 0 ]} : gmap Z R).
    rewrite sum_values_singleton. cbn. lra.
  - reflexivity.
  - cbn. lra.
  - apply Rnot_lt_le, example_pct. reflexivity.
  - lra.
  - lra.
  - exact Hd'.
Defined.

(** X24: the cost basis is a weighted average.  When an object that
    holds shares buys at a timestep without an entry, the new cost basis
    lies between the cost basis it had and the price it paid per share. *)
Theorem cost_basis_between_old_and_paid
    (supply reserve spot thr : R) (t : Z) (d d' : Delegator) (cs ar : R) :
  shares d > 0 ->
  _unvested_shares d !! t = None ->
  private_price d > spot ->
  thr <= pct_price_diff d spot ->
  cs > 0 -> ar > 0 ->
  buy_or_sell supply reserve spot thr t d = (Ok (cs, ar), d') ->
  Rmin (cost_basis d) (ar / cs) <= cost_basis d' <= Rmax (cost_basis d) (ar / cs).
Proof.
  intros Hpos Hfresh Hbuy Hthr Hcs Har Hrun.
  pose proof (purchase_cost_basis _ _ _ _ _ _ _ _ _ Hrun ltac:(lra) Har) as [_ Hcb].
  assert (Hsh : shares d' = shares d + cs).
  { apply buy_or_sell_Ok_inv in Hrun as (d1 & Htr & Hbk); [| lra].
    rewrite trade_buy in Htr by exact Hbuy.
    apply buy_Ok_inv in Htr as (_ & _ & _ & _ & ->).
    apply bookkeeping_frame in Hbk as (Hu & Hv & _). cbn in Hu, Hv.
    unfold shares, unvested_shares in *. rewrite Hu, Hv.
    rewrite sum_values_insert_fresh by exact Hfresh. lra. }
  rewrite Hcb, Hsh. clear Hcb Hsh Hrun.
  set (u := ar / cs). set (cb := cost_basis d). set (S := shares d) in *.
  assert (Htot : 0 < S + cs) by lra.
  assert (Hlo : Rmin cb u * (S + cs) <= cb * S + u * cs).
  { pose proof (Rmin_l cb u). pose proof (Rmin_r cb u). nra. }
  assert (Hhi : cb * S + u * cs <= Rmax cb u * (S + cs)).
  { pose proof (Rmax_l cb u). pose proof (Rmax_r cb u). nra. }
  split.
  - apply (Rmult_le_reg_r (S + cs)); [lra |].
    unfold Rdiv. rewrite Rmult_assoc, Rinv_l by lra. lra.
  - apply (Rmult_le_reg_r (S + cs)); [lra |].
    unfold Rdiv. rewrite Rmult_assoc, Rinv_l by lra. lra.
Qed.

Lemma cost_basis_between_old_and_paid_witness :
  let d := first_delegator (kw.mk 100 500 0 (9 / 10) 2 (1 / 2) 0 (9 / 10) 0) 3 in
  exists d',
    buy_or_sell 1000 1000 2 (1 / 100) 5 d
    = (Ok (1000 * sqrt (3 / 2) - 1000, 500), d')
    /\ Rmin 0 (500 / (1000 * sqrt (3 / 2) - 1000)) <= cost_basis d'
       <= Rmax 0 (500 / (1000 * sqrt (3 / 2) - 1000)).
Proof.
  intros d.
  assert (Hnn : shares_nonneg d)
    by (apply first_delegator_shares_nonneg; cbn; lra).
  destruct (example_buy 5 d eq_refl eq_refl Hnn) as (d' & Hd' & _).
  exists d'. split; [exact Hd' |].
  pose proof (sqrt_gt_1 (3 / 2) ltac:(lra)) as Hroot.
  apply (cost_basis_between_old_and_paid 1000 1000 2 (1 / 100) 5 d d'
           (1000 * sqrt (3 / 2) - 1000) 500).
  - unfold shares, unvested_shares.
    change (_unvested_shares d) with ({[ 0%Z := 100 ]} : gmap Z R).
    rewrite sum_values_singleton. cbn. lra.
  - reflexivity.
  - cbn. lra.
  - apply Rnot_lt_le, example_pct. reflexivity.
  - lra.
  - lra.
  - exact Hd'.
Defined.

(** ** Calls that trade nothing *)


